(** * Pet-nutrition front end: report arithmetic and recipe API

    A shallow embedding of the TypeScript sources

      - the report hook [useRecipeData] (nutrient density, macronutrient
        chart, compliance rows, radar chart),
      - the API client (the life-stage rule [calculateLifeStage] and
        [recipeAPI.generateRecipe]),
      - the table [AAFCO_STANDARDS] with its [NutrientID] keys,
      - the [RecipeResult] component (the economic analysis table),
      - the record shapes of [types/index.ts],

    followed by the properties the specification states about them.

    Numbers.  Two models of a JavaScript [number] are used.  [JS.number]
    is a value as mathematics sees it: an exact rational, or one of
    [Infinity], [-Infinity], [NaN]; its arithmetic does not round and its
    two zeros are one.  It carries the statements that hold whatever the
    rounding: comparisons with the bounds of the table, the shape of the
    data, the numerals printed for given numbers.  [F64.float] is the number
    of the engine, IEEE-754 binary64 bit for bit; the two computations whose
    results depend on rounding, [nutrientDensity] and [macroData], are
    embedded a second time over it in [Module Binary64], and the statements
    about their values are made there.

    Types.  A field typed [T | null] or [T?] is an [option]; the one field
    the sources read from an [any]-typed object and only test for
    truthiness is a [JS.value].  [petDetails.life_stage] is taken to be a
    member of the [LifeStage] enum, as its use as a key of the table
    requires. *)

From Stdlib Require Import ZArith QArith Qcanon Qround Qabs.
From Stdlib Require Import Floats.SpecFloat.
From Stdlib Require Import List String Ascii Bool Lia Lqa DecimalString.
Import ListNotations.

Open Scope string_scope.

(* ================================================================== *)
(** * JavaScript numbers and values *)
(* ================================================================== *)

Module JS.

Inductive number : Type :=
| Fin (q : Qc)
| PosInf
| NegInf
| NaN.

(** A numeric literal of the source. *)
Definition lit (q : Q) : number := Fin (Q2Qc q).

(** Sign of a rational: [Lt] negative, [Eq] zero, [Gt] positive. *)
Definition sgn (q : Qc) : comparison := (q ?= Q2Qc 0)%Qc.

Definition add (x y : number) : number :=
  match x, y with
  | NaN, _ | _, NaN => NaN
  | Fin a, Fin b => Fin (a + b)
  | PosInf, NegInf | NegInf, PosInf => NaN
  | PosInf, _ | _, PosInf => PosInf
  | NegInf, _ | _, NegInf => NegInf
  end.

Definition mul (x y : number) : number :=
  match x, y with
  | NaN, _ | _, NaN => NaN
  | Fin a, Fin b => Fin (a * b)
  | Fin a, PosInf | PosInf, Fin a =>
      match sgn a with Eq => NaN | Gt => PosInf | Lt => NegInf end
  | Fin a, NegInf | NegInf, Fin a =>
      match sgn a with Eq => NaN | Gt => NegInf | Lt => PosInf end
  | PosInf, PosInf | NegInf, NegInf => PosInf
  | PosInf, NegInf | NegInf, PosInf => NegInf
  end.

Definition div (x y : number) : number :=
  match x, y with
  | NaN, _ | _, NaN => NaN
  | Fin a, Fin b =>
      match sgn b with
      | Eq => match sgn a with Eq => NaN | Gt => PosInf | Lt => NegInf end
      | _ => Fin (a / b)
      end
  | Fin _, PosInf | Fin _, NegInf => Fin (Q2Qc 0)
  | PosInf, Fin b => match sgn b with Lt => NegInf | _ => PosInf end
  | NegInf, Fin b => match sgn b with Lt => PosInf | _ => NegInf end
  | _, _ => NaN
  end.

(** [x < y]; false as soon as one side is [NaN]. *)
Definition ltb (x y : number) : bool :=
  match x, y with
  | NaN, _ | _, NaN => false
  | Fin a, Fin b => match (a ?= b)%Qc with Lt => true | _ => false end
  | NegInf, Fin _ | NegInf, PosInf | Fin _, PosInf => true
  | _, _ => false
  end.

(** [x > y]. *)
Definition gtb (x y : number) : bool := ltb y x.

(** [x <= y] and [x >= y] (both false on [NaN]). *)
Definition leb (x y : number) : bool :=
  match x, y with
  | NaN, _ | _, NaN => false
  | _, _ => negb (ltb y x)
  end.

(** [Math.min(x, y)]. *)
Definition Math_min (x y : number) : number :=
  match x, y with
  | NaN, _ | _, NaN => NaN
  | _, _ => if ltb x y then x else y
  end.

(** Truthiness of a number: [0] and [NaN] are falsy. *)
Definition truthy (x : number) : bool :=
  match x with
  | NaN => false
  | Fin q => match sgn q with Eq => false | _ => true end
  | _ => true
  end.

(** Truthiness of [number | null | undefined]. *)
Definition truthy_opt (x : option number) : bool :=
  match x with
  | None => false
  | Some v => truthy v
  end.

(** [x || d] for an optional number [x]. *)
Definition or_num (x : option number) (d : number) : number :=
  match x with
  | Some v => if truthy v then v else d
  | None => d
  end.

(** ** [Number.prototype.toFixed]

    The numeral produced by [x.toFixed(d)].  For a finite [x] of magnitude
    below [10^21] it is the sign, then the integer [n] for which [n / 10^d]
    is closest to [|x|] (the larger one on a tie), printed with [d]
    fractional digits.  From [10^21] on JavaScript prints the number in
    exponent form, whose digits depend on the binary64 value: that case
    only keeps the number. *)
Inductive fixed : Type :=
| FixedDec (neg : bool) (n : N) (d : nat)
| FixedNaN
| FixedInf (neg : bool)
| FixedSci (q : Qc).

Definition pow10 (d : nat) : Z := (10 ^ Z.of_nat d)%Z.

Definition round_half_up (a : Q) : Z := Qfloor (a + (1 # 2)).

Definition toFixed (d : nat) (x : number) : fixed :=
  match x with
  | NaN => FixedNaN
  | PosInf => FixedInf false
  | NegInf => FixedInf true
  | Fin q =>
      let a := Qabs (this q) in
      if Qle_bool (inject_Z (10 ^ 21)) a then FixedSci q
      else
        FixedDec (match sgn q with Lt => true | _ => false end)
                 (Z.to_N (round_half_up (a * inject_Z (pow10 d)))) d
  end.

(** The number a numeral denotes (what [Number(s)] gives back). *)
Definition fixed_value (f : fixed) : number :=
  match f with
  | FixedDec neg n d =>
      let m := Q2Qc (inject_Z (Z.of_N n) / inject_Z (pow10 d)) in
      Fin (if neg then (- m)%Qc else m)
  | FixedNaN => NaN
  | FixedInf neg => if neg then NegInf else PosInf
  | FixedSci q => Fin q
  end.

(** The characters of a numeral, where the model determines them. *)
Fixpoint zeros (k : nat) : string :=
  match k with
  | O => ""
  | S k' => String "0"%char (zeros k')
  end.

Definition pad_left (w : nat) (s : string) : string :=
  zeros (w - String.length s) ++ s.

Definition digits_of (n : N) : string :=
  match n with
  | 0%N => "0"
  | _ => NilEmpty.string_of_uint (N.to_uint n)
  end.

Definition fixed_string (f : fixed) : option string :=
  match f with
  | FixedDec neg n d =>
      let p := Z.to_N (pow10 d) in
      let int_part := digits_of (n / p) in
      let frac := pad_left d (digits_of (n mod p)) in
      let body := match d with
                  | O => int_part
                  | _ => int_part ++ "." ++ frac
                  end in
      Some (if neg then "-" ++ body else body)
  | FixedNaN => Some "NaN"
  | FixedInf neg => Some (if neg then "-Infinity" else "Infinity")
  | FixedSci _ => None
  end.

(** ** Untyped values

    Only what the sources test for truthiness on an [any]-typed field. *)
Inductive value : Type :=
| VUndefined
| VNull
| VBool (b : bool)
| VNum (n : number)
| VStr (s : string)
| VObj.                       (* an object or array: always truthy *)

Definition truthy_str (s : string) : bool :=
  match s with
  | EmptyString => false
  | _ => true
  end.

Definition truthy_val (v : value) : bool :=
  match v with
  | VUndefined | VNull => false
  | VBool b => b
  | VNum n => truthy n
  | VStr s => truthy_str s
  | VObj => true
  end.

(** [a || b] on values. *)
Definition or_val (a b : value) : value := if truthy_val a then a else b.

(** [s || d] for an optional string [s]. *)
Definition or_str (s : option string) (d : string) : string :=
  match s with
  | Some v => if truthy_str v then v else d
  | None => d
  end.

End JS.

Declare Scope js_scope.
Delimit Scope js_scope with js.
Bind Scope js_scope with JS.number.
Notation "x + y" := (JS.add x y) : js_scope.
Notation "x * y" := (JS.mul x y) : js_scope.
Notation "x / y" := (JS.div x y) : js_scope.
Notation "x <? y" := (JS.ltb x y) : js_scope.
Notation "x >? y" := (JS.gtb x y) : js_scope.
Notation "x <=? y" := (JS.leb x y) : js_scope.
Arguments JS.lit q%_Q.

(** Literals of the source are written [num 13.8]. *)
Abbreviation num := JS.lit.

(* ================================================================== *)
(** * Types ([types/index.ts]) *)
(* ================================================================== *)

Inductive LifeStage : Type :=
| DOG_PUPPY
| DOG_ADULT
| CAT_KITTEN
| CAT_ADULT.

(** The string each member of the enum stands for. *)
Definition LifeStage_value (l : LifeStage) : string :=
  match l with
  | DOG_PUPPY => "dog_puppy"
  | DOG_ADULT => "dog_adult"
  | CAT_KITTEN => "cat_kitten"
  | CAT_ADULT => "cat_adult"
  end.

Record NutritionAnalysis : Type := {
  total_calories_kcal : JS.number;
  protein_g : JS.number;
  fat_g : JS.number;
  carbohydrate_g : JS.number;
  fiber_g : option JS.number          (* [fiber_g?: number] *)
}.

Record Violation : Type := {
  v_nutrient : string;
  v_actual : JS.number;
  v_unit : string
}.

Record AAFCOAnalysis : Type := {
  compliant : bool;
  violations : list Violation;
  score : JS.number
}.

Record EfficiencyMetrics : Type := {
  caloric_density_kcal_per_g : JS.number;
  cost_efficiency_cost_per_kcal : JS.number;
  ingredient_count : JS.number;
  eff_weight_category : string
}.

Record CostAnalysis : Type := {
  total_cost : JS.number;
  cost_per_kg : JS.number
}.

Record WeightAnalysis : Type := {
  optimization_mode : string;
  weight_category : string;
  weight_reasonable : bool;
  target_weight_g : option JS.number
}.

Record RecipeIngredient : Type := {
  fdc_id : Z;
  description : string;
  amount_g : JS.number;
  percentage : JS.number;
  cost : option JS.number;
  calories : option JS.number;
  category : option string
}.

Record RecipeData : Type := {
  pet_id : Z;
  total_weight_g : JS.number;
  target_calories : JS.number;
  actual_calories : JS.number;
  energy_accuracy : JS.number;
  ingredients : list RecipeIngredient
}.

(** [cost_analysis] is declared mandatory, yet the component guards on it
    ([analysis.cost_analysis ? ... : null]); it is optional here so that the
    guard means something. *)
Record Analysis : Type := {
  nutrition : NutritionAnalysis;
  efficiency : EfficiencyMetrics;
  aafco_compliance : AAFCOAnalysis;
  cost_analysis : option CostAnalysis;
  weight_analysis : option WeightAnalysis
}.

(** [status] is declared ['Success' | 'Failed' | 'Error']; at run time it is
    whatever string the backend sent. *)
Record RecipeResult : Type := {
  status : string;
  error : JS.value;
  recipe : RecipeData;
  analysis : Analysis
}.

Definition RecipeResult_status_declared (s : string) : Prop :=
  s = "Success" \/ s = "Failed" \/ s = "Error".

Record RecipeGenerationRequest : Type := {
  req_pet_id : Z;
  req_target_calories : option JS.number;
  req_preferred_weight_g : option JS.number
}.

(* ================================================================== *)
(** * The AAFCO table ([constants/aafcoStandards.ts]) *)
(* ================================================================== *)

Module NutrientID.
Definition ENERGY : Z := 1008.
Definition PROTEIN : Z := 1003.
Definition CALCIUM : Z := 1087.
Definition PHOSPHORUS : Z := 1091.
Definition FAT : Z := 1004.
Definition CARBOHYDRATE : Z := 1005.
Definition WATER : Z := 1051.
Definition FIBER : Z := 1079.
Definition IRON : Z := 1089.
Definition ZINC : Z := 1095.
Definition COPPER : Z := 1098.
Definition MAGNESIUM : Z := 1090.
Definition POTASSIUM : Z := 1092.
Definition SODIUM : Z := 1093.
Definition SELENIUM : Z := 1103.
Definition VITAMIN_A : Z := 1104.
Definition VITAMIN_D : Z := 1110.
Definition VITAMIN_E : Z := 1109.
Definition VITAMIN_B1 : Z := 1165.
Definition VITAMIN_B12 : Z := 1178.
Definition RIBOFLAVIN : Z := 1166.
Definition OMEGA_6 : Z := 1316.
Definition OMEGA_3 : Z := 1404.
End NutrientID.

(** One row of the table; [None] is JavaScript's [null]. *)
Record Standard : Type := {
  min : option JS.number;
  max : option JS.number;
  unit : string;
  nutrient_id : Z
}.

Definition std (id : Z) (mn : JS.number) (mx : option JS.number) (u : string)
  : Z * Standard :=
  (id, {| min := Some mn; max := mx; unit := u; nutrient_id := id |}).

Definition null : option JS.number := None.

Import NutrientID.

Definition AAFCO_STANDARDS (stage : LifeStage) : list (Z * Standard) :=
  match stage with
  | DOG_ADULT =>
      [ std PROTEIN (num 45.0) null "G";
        std FAT (num 13.8) null "G";
        std ENERGY (num 2000) null "KCAL";
        std CALCIUM (num 1.25 * num 1000) (Some (num 6.25 * num 1000)) "MG";
        std PHOSPHORUS (num 1.0 * num 1000) (Some (num 4.0 * num 1000)) "MG";
        std POTASSIUM (num 1.5 * num 1000) null "MG";
        std SODIUM (num 0.2 * num 1000) null "MG";
        std MAGNESIUM (num 0.15 * num 1000) null "MG";
        std IRON (num 10) null "MG";
        std ZINC (num 20) null "MG";
        std COPPER (num 1.83) null "MG";
        std SELENIUM (num 0.08 * num 1000) (Some (num 0.5 * num 1000)) "UG";
        std VITAMIN_A (num 1250) (Some (num 62500)) "IU";
        std VITAMIN_E (num 12.5 * num 0.6774) null "MG";
        std VITAMIN_D (num 125) (Some (num 750)) "IU";
        std VITAMIN_B1 (num 0.56) null "MG";
        std VITAMIN_B12 (num 0.007 * num 1000) null "UG";
        std RIBOFLAVIN (num 1.3) null "MG";
        std OMEGA_6 (num 3.3) null "G";
        std OMEGA_3 (num 0.2) null "G" ]
  | DOG_PUPPY =>
      [ std PROTEIN (num 30) null "G";
        std FAT (num 21.3) null "G";
        std CALCIUM (num 3.0 * num 1000) (Some (num 6.25 * num 1000)) "MG";
        std PHOSPHORUS (num 2.5 * num 1000) (Some (num 4.0 * num 1000)) "MG";
        std POTASSIUM (num 1.5 * num 1000) null "MG";
        std SODIUM (num 0.8 * num 1000) null "MG";
        std MAGNESIUM (num 0.14 * num 1000) null "MG";
        std IRON (num 22) null "MG";
        std ZINC (num 25) null "MG";
        std COPPER (num 3.1) null "MG";
        std SELENIUM (num 0.5 * num 1000) null "UG";
        std VITAMIN_A (num 1250) (Some (num 62500)) "IU";
        std VITAMIN_D (num 125) (Some (num 750)) "IU";
        std VITAMIN_E (num 12.5) null "MG";
        std VITAMIN_B1 (num 0.56) null "MG";
        std VITAMIN_B12 (num 0.007 * num 1000) null "UG";
        std RIBOFLAVIN (num 1.3) null "MG";
        std OMEGA_6 (num 3.3) null "G";
        std OMEGA_3 (num 0.2) null "G" ]
  | CAT_ADULT =>
      [ std PROTEIN (num 63.0) null "G";
        std FAT (num 22.5) null "G";
        std ENERGY (num 2000) null "KCAL";
        std CALCIUM (num 1.44 * num 1000) (Some (num 6.25 * num 1000)) "MG";
        std PHOSPHORUS (num 1.25 * num 1000) (Some (num 4.0 * num 1000)) "MG";
        std POTASSIUM (num 1.67 * num 1000) null "MG";
        std SODIUM (num 0.21 * num 1000) null "MG";
        std MAGNESIUM (num 0.1 * num 1000) null "MG";
        std IRON (num 20) null "MG";
        std ZINC (num 18.75) null "MG";
        std COPPER (num 1.25) null "MG";
        std SELENIUM (num 0.067 * num 1000) (Some (num 0.5 * num 1000)) "UG";
        std VITAMIN_A (num 2083) (Some (num 333333)) "IU";
        std VITAMIN_E (num 9.58) null "MG";
        std VITAMIN_D (num 62.5) (Some (num 1667)) "IU";
        std VITAMIN_B1 (num 1.4) null "MG";
        std VITAMIN_B12 (num 0.0056 * num 1000) null "UG";
        std RIBOFLAVIN (num 1.0) null "MG";
        std OMEGA_6 (num 1.4) null "G";
        std OMEGA_3 (num 0.06) null "G" ]
  | CAT_KITTEN =>
      [ std PROTEIN (num 75.0) null "G";
        std FAT (num 22.5) null "G";
        std CALCIUM (num 2.4 * num 1000) (Some (num 6.25 * num 1000)) "MG";
        std PHOSPHORUS (num 2.0 * num 1000) (Some (num 4.0 * num 1000)) "MG";
        std POTASSIUM (num 1.67 * num 1000) null "MG";
        std SODIUM (num 0.67 * num 1000) null "MG";
        std MAGNESIUM (num 0.1 * num 1000) null "MG";
        std IRON (num 20) null "MG";
        std ZINC (num 18.75) null "MG";
        std COPPER (num 1.67) null "MG";
        std SELENIUM (num 0.083 * num 1000) null "UG";
        std VITAMIN_A (num 2083) (Some (num 333333)) "IU";
        std VITAMIN_E (num 9.58) null "MG";
        std VITAMIN_D (num 62.5) (Some (num 1667)) "IU";
        std VITAMIN_B1 (num 1.4) null "MG";
        std VITAMIN_B12 (num 0.0056 * num 1000) null "UG";
        std RIBOFLAVIN (num 1.0) null "MG";
        std OMEGA_6 (num 1.4) null "G";
        std OMEGA_3 (num 0.06) null "G" ]
  end%js.

(** [table[id]]: the row stored under a key, [None] for [undefined]. *)
Fixpoint lookup (id : Z) (rows : list (Z * Standard)) : option Standard :=
  match rows with
  | [] => None
  | (k, s) :: rest => if Z.eqb k id then Some s else lookup id rest
  end.

Definition all_life_stages : list LifeStage :=
  [DOG_ADULT; DOG_PUPPY; CAT_ADULT; CAT_KITTEN].

(* ================================================================== *)
(** * The report hook ([hooks/useRecipeData.ts]) *)
(* ================================================================== *)

(** The pet record the hook keeps in its state ([any] in the source); only
    the fields [petInfo] reads and the charts depend on. *)
Record PetDetails : Type := {
  pd_species : option string;
  pd_life_stage : option LifeStage;
  pd_age_months : option JS.number
}.

Record PetInfo : Type := {
  info_pet_id : Z;
  species : string;
  life_stage : LifeStage;
  age : string
}.

Definition petInfo (recipeData : RecipeData) (petDetails : option PetDetails)
  : PetInfo :=
  let petId := pet_id recipeData in
  match petDetails with
  | Some d =>
      {| info_pet_id := petId;
         species := JS.or_str (pd_species d) "dog";
         life_stage := match pd_life_stage d with
                       | Some l => l
                       | None => DOG_ADULT
                       end;
         age := match pd_age_months d with
                | Some m =>
                    if JS.truthy m
                    then (if (m <? num 12)%js then "Puppy/Kitten" else "Adult")
                    else "Adult"
                | None => "Adult"
                end |}
  | None =>
      {| info_pet_id := petId;
         species := "dog";
         life_stage := DOG_ADULT;
         age := "Adult" |}
  end.

Record NutrientDensity : Type := {
  protein : JS.number;
  fat : JS.number;
  carbohydrate : JS.number;
  fiber : JS.number
}.

Definition nutrientDensity (recipeData : RecipeData) (a : Analysis)
  : NutrientDensity :=
  let factor := (num 1000 / actual_calories recipeData)%js in
  {| protein := (protein_g (nutrition a) * factor)%js;
     fat := (fat_g (nutrition a) * factor)%js;
     carbohydrate := (carbohydrate_g (nutrition a) * factor)%js;
     fiber := (JS.or_num (fiber_g (nutrition a)) (num 0) * factor)%js |}.

Module MACRO_COLORS.
Definition protein : string := "#DC2626".
Definition fat : string := "#D97706".
Definition carbs : string := "#059669".
End MACRO_COLORS.

Module Macro.
(** One slice of the macronutrient chart; [percentage] is the string that
    [toFixed(1)] returns. *)
Record t : Type := {
  name : string;
  value : JS.number;
  percentage : JS.fixed;
  color : string;
  calories : JS.number
}.
End Macro.

Definition macroData (a : Analysis) : list Macro.t :=
  let p := protein_g (nutrition a) in
  let f := fat_g (nutrition a) in
  let c := carbohydrate_g (nutrition a) in
  let total := (p + f + c)%js in
  [ {| Macro.name := "Protein";
       Macro.value := p;
       Macro.percentage := JS.toFixed 1 ((p / total) * num 100)%js;
       Macro.color := MACRO_COLORS.protein;
       Macro.calories := (p * num 4)%js |};
    {| Macro.name := "Fat";
       Macro.value := f;
       Macro.percentage := JS.toFixed 1 ((f / total) * num 100)%js;
       Macro.color := MACRO_COLORS.fat;
       Macro.calories := (f * num 9)%js |};
    {| Macro.name := "Carbohydrate";
       Macro.value := c;
       Macro.percentage := JS.toFixed 1 ((c / total) * num 100)%js;
       Macro.color := MACRO_COLORS.carbs;
       Macro.calories := (c * num 4)%js |} ].

Module Main.
(** An element of the [mainNutrients] array. *)
Record t : Type := {
  id : Z;
  name : string;
  actual : JS.number
}.
End Main.

Definition mainNutrients (d : NutrientDensity) : list Main.t :=
  [ {| Main.id := PROTEIN; Main.name := "Protein"; Main.actual := protein d |};
    {| Main.id := FAT; Main.name := "Fat"; Main.actual := fat d |};
    (* the next three literals carry the source comment "simulated value" *)
    {| Main.id := CALCIUM; Main.name := "Calcium"; Main.actual := num 1250 |};
    {| Main.id := PHOSPHORUS; Main.name := "Phosphorus"; Main.actual := num 1200 |};
    {| Main.id := IRON; Main.name := "Iron"; Main.actual := num 12 |} ]%js.

Module Compliance.
(** A row pushed onto [complianceArray]. *)
Record t : Type := {
  nutrient : string;
  actual : JS.number;
  required_min : option JS.number;
  required_max : option JS.number;
  unit : string;
  status : string
}.
End Compliance.

(** [bound && test bound]: the guard of each branch of the classification. *)
Definition guarded (bound : option JS.number) (test : JS.number -> bool) : bool :=
  match bound with
  | Some b => JS.truthy b && test b
  | None => false
  end.

(** The [let status = ...; if ... else if ...] block. *)
Definition classify (standard : Standard) (actual : JS.number) : string :=
  if guarded (min standard) (fun m => (actual <? m)%js) then "DEFICIENT"
  else if guarded (max standard) (fun m => (actual >? m)%js) then "EXCESSIVE"
  else "ADEQUATE".

(** The object literal pushed for a nutrient that has a standard. *)
Definition compliance_row (n : Main.t) (standard : Standard) : Compliance.t :=
  {| Compliance.nutrient := Main.name n;
     Compliance.actual := Main.actual n;
     Compliance.required_min := min standard;
     Compliance.required_max := max standard;
     Compliance.unit := unit standard;
     Compliance.status := classify standard (Main.actual n) |}.

(** The body of [mainNutrients.forEach]: the array after one more nutrient. *)
Definition compliance_step (currentStandards : list (Z * Standard))
    (complianceArray : list Compliance.t) (n : Main.t) : list Compliance.t :=
  match lookup (Main.id n) currentStandards with
  | None => complianceArray                              (* [if (!standard) return] *)
  | Some standard => (complianceArray ++ [compliance_row n standard])%list
  end.

Definition complianceData (d : NutrientDensity) (stage : LifeStage)
  : list Compliance.t :=
  fold_left (compliance_step (AAFCO_STANDARDS stage)) (mainNutrients d) [].

Module Radar.
Record t : Type := {
  nutrient : string;
  value : JS.number;
  fullMark : JS.number;
  status : string
}.
End Radar.

Definition radar_item (item : Compliance.t) : Radar.t :=
  {| Radar.nutrient := Compliance.nutrient item;
     Radar.value :=
       match Compliance.required_min item with
       | Some m =>
           if JS.truthy m
           then JS.Math_min (Compliance.actual item / m * num 100)%js (num 150)
           else num 100
       | None => num 100
       end;
     Radar.fullMark := num 150;
     Radar.status := Compliance.status item |}.

Definition radarData (c : list Compliance.t) : list Radar.t :=
  map radar_item c.

Record RecipeDataView : Type := {
  view_petInfo : PetInfo;
  view_nutrientDensity : NutrientDensity;
  view_macroData : list Macro.t;
  view_complianceData : list Compliance.t;
  view_radarData : list Radar.t
}.

(** The hook, as a function of the recipe and of the [petDetails] state. *)
Definition useRecipeData (r : RecipeResult) (petDetails : option PetDetails)
  : RecipeDataView :=
  let info := petInfo (recipe r) petDetails in
  let density := nutrientDensity (recipe r) (analysis r) in
  let compliance := complianceData density (life_stage info) in
  {| view_petInfo := info;
     view_nutrientDensity := density;
     view_macroData := macroData (analysis r);
     view_complianceData := compliance;
     view_radarData := radarData compliance |}.

(* ================================================================== *)
(** * The API client ([services/api.ts]) *)
(* ================================================================== *)

Definition calculateLifeStage (species : string) (age_months : JS.number)
  : LifeStage :=
  if String.eqb species "dog" then
    (if (age_months <? num 12)%js then DOG_PUPPY else DOG_ADULT)
  else if String.eqb species "cat" then
    (if (age_months <? num 12)%js then CAT_KITTEN else CAT_ADULT)
  else DOG_ADULT.

(** ** Promises and exceptions

    An [async] function either resolves with a value or rejects with the
    thrown error; [await] is [bind] and [try { } catch (e) { }] is
    [try_catch]. *)

(** A thrown value: an [AxiosError] ([axios.isAxiosError] answers [true]) or
    a plain [Error].  [detail] is [error.response?.data?.detail]. *)
Record JsError : Type := {
  isAxiosError : bool;
  message : string;
  detail : JS.value
}.

Definition new_Error (msg : string) : JsError :=
  {| isAxiosError := false; message := msg; detail := JS.VUndefined |}.

Inductive Promise (A : Type) : Type :=
| Resolved (a : A)
| Rejected (e : JsError).

Arguments Resolved {A} a.
Arguments Rejected {A} e.

Definition bind {A B : Type} (p : Promise A) (k : A -> Promise B) : Promise B :=
  match p with
  | Resolved a => k a
  | Rejected e => Rejected e
  end.

Definition try_catch {A : Type} (body : Promise A) (handler : JsError -> Promise A)
  : Promise A :=
  match body with
  | Resolved a => Resolved a
  | Rejected e => handler e
  end.

Notation "x <- p ;; k" := (bind p (fun x => k))
  (at level 61, p at next level, right associativity).

(** The rejection handler of the response interceptor.  Every path through
    it ends in [Promise.reject(new Error(errorMessage))]; [describe] stands
    for the text it assembles from the original error. *)
Definition response_interceptor_rejected (describe : JsError -> string)
    (e : JsError) : JsError :=
  new_Error (describe e).

(** The body sent to [/recipes/generate]. *)
Record ApiRequest : Type := {
  api_pet_id : Z;
  api_target_calories : option JS.number;
  api_preferred_weight_g : option JS.number
}.

(** [response.data] as it arrives: nothing guarantees [recipe] and
    [analysis] are there, which is what the function checks. *)
Record ResponseData : Type := {
  data_status : string;
  data_error : option string;
  data_recipe : option RecipeData;
  data_analysis : option Analysis
}.

(** [x ? Number(x) : undefined] *)
Definition number_or_undefined (x : option JS.number) : option JS.number :=
  match x with
  | Some v => if JS.truthy v then Some v else None
  | None => None
  end.

(** The result synthesised in the [catch] block. *)
Definition error_result (request : RecipeGenerationRequest) (e : JsError)
  : RecipeResult :=
  {| status := "Error";
     error := JS.or_val (JS.or_val (detail e) (JS.VStr (message e)))
                        (JS.VStr "Network error");
     recipe :=
       {| pet_id := req_pet_id request;
          total_weight_g := num 0;
          target_calories := JS.or_num (req_target_calories request) (num 0);
          actual_calories := num 0;
          energy_accuracy := num 0;
          ingredients := [] |};
     analysis :=
       {| nutrition :=
            {| total_calories_kcal := num 0;
               protein_g := num 0;
               fat_g := num 0;
               carbohydrate_g := num 0;
               fiber_g := Some (num 0) |};
          efficiency :=
            {| caloric_density_kcal_per_g := num 0;
               cost_efficiency_cost_per_kcal := num 0;
               ingredient_count := num 0;
               eff_weight_category := "Unknown" |};
          aafco_compliance :=
            {| compliant := false; violations := []; score := num 0 |};
          cost_analysis :=
            Some {| total_cost := num 0; cost_per_kg := num 0 |};
          weight_analysis :=
            Some {| optimization_mode := "unknown";
                    weight_category := "Unknown";
                    weight_reasonable := false;
                    target_weight_g := None |} |} |}.

Definition value_of_string (s : option string) : JS.value :=
  match s with
  | Some v => JS.VStr v
  | None => JS.VUndefined
  end.

(** The [apiRequest] object. *)
Definition apiRequest_of (request : RecipeGenerationRequest) : ApiRequest :=
  {| api_pet_id := req_pet_id request;
     api_target_calories := number_or_undefined (req_target_calories request);
     api_preferred_weight_g :=
       number_or_undefined (req_preferred_weight_g request) |}.

(** [recipeAPI.generateRecipe]; [post] stands for
    [apiClient.post('/recipes/generate', _)], interceptors included. *)
Definition generateRecipe (post : ApiRequest -> Promise ResponseData)
    (request : RecipeGenerationRequest) : Promise RecipeResult :=
  try_catch
    (let apiRequest := apiRequest_of request in
     data <- post apiRequest ;;
     if String.eqb (data_status data) "Error" then
       Rejected (new_Error (JS.or_str (data_error data) "Recipe generation failed"))
     else
       match data_recipe data, data_analysis data with
       | Some r, Some a =>
           Resolved {| status := data_status data;
                       error := value_of_string (data_error data);
                       recipe := r;
                       analysis := a |}
       | _, _ => Rejected (new_Error "Recipe data structure is incomplete")
       end)
    (fun e =>
       if isAxiosError e then Resolved (error_result request e)
       else Rejected e).

(** [apiClient.post] seen through the response interceptor: [raw] is the
    transport underneath; a response passes unchanged, a failure goes
    through the rejection handler. *)
Definition apiClient_post {A B : Type} (describe : JsError -> string)
    (raw : A -> Promise B) (body : A) : Promise B :=
  match raw body with
  | Resolved response => Resolved response
  | Rejected e => Rejected (response_interceptor_rejected describe e)
  end.

(* ================================================================== *)
(** * The report component ([components/RecipeResult.tsx]) *)
(* ================================================================== *)

(** Table 4, "Economic Analysis": the four numerals shown (the first three
    after a yen sign). *)
Record EconomicAnalysis : Type := {
  shown_total_cost : JS.fixed;
  shown_cost_per_kg : JS.fixed;
  shown_cost_per_kcal : JS.fixed;
  shown_energy_density : JS.fixed
}.

Record Report : Type := {
  economic : option EconomicAnalysis;      (* absent without [cost_analysis] *)
  finding_cost_efficiency : JS.fixed       (* "Cost efficiency" key finding *)
}.

Inductive View : Type :=
| Unavailable                     (* "Recipe Data Unavailable" *)
| Rendered (r : Report).

Definition economic_table (r : RecipeResult) : option EconomicAnalysis :=
  match cost_analysis (analysis r) with
  | Some ca =>
      Some {| shown_total_cost := JS.toFixed 2 (total_cost ca);
              shown_cost_per_kg := JS.toFixed 2 (cost_per_kg ca);
              shown_cost_per_kcal :=
                JS.toFixed 3 (total_cost ca / actual_calories (recipe r))%js;
              shown_energy_density :=
                JS.toFixed 1 (actual_calories (recipe r)
                              / total_weight_g (recipe r))%js |}
  | None => None
  end.

(** [undefined / x] is [NaN]. *)
Definition total_cost_or_undefined (a : Analysis) : JS.number :=
  match cost_analysis a with
  | Some ca => total_cost ca
  | None => JS.NaN
  end.

Definition RecipeResult_component (r : option RecipeResult) : View :=
  match r with
  | None => Unavailable
  | Some r =>
      if negb (String.eqb (status r) "Success") then Unavailable
      else
        Rendered
          {| economic := economic_table r;
             finding_cost_efficiency :=
               JS.toFixed 3 (total_cost_or_undefined (analysis r)
                             / actual_calories (recipe r))%js |}
  end.

(* ================================================================== *)
(** * More of the report hook: the ingredient chart *)
(* ================================================================== *)

Definition COLORS : list string :=
  ["#2563EB"; "#DC2626"; "#059669"; "#D97706";
   "#7C3AED"; "#DB2777"; "#0891B2"; "#EA580C"].

Module Slice.
(** One slice of the ingredient chart; [color] is [None] where indexing
    [COLORS] would give [undefined]. *)
Record t : Type := {
  name : string;
  value : JS.number;
  percentage : JS.number;
  color : option string
}.
End Slice.

(** [description.length > 12 ? description.substring(0, 12) + '...' :
    description]; a character of the model stands for one UTF-16 code
    unit. *)
Definition slice_name (description : string) : string :=
  if Nat.ltb 12 (String.length description)
  then String.substring 0 12 description ++ "..."
  else description.

Definition slice (item : RecipeIngredient) (index : nat) : Slice.t :=
  {| Slice.name := slice_name (description item);
     Slice.value := amount_g item;
     Slice.percentage := percentage item;
     Slice.color := nth_error COLORS (index mod List.length COLORS) |}.

(** [array.map((item, index) => f(item, index))], from a starting index. *)
Fixpoint map_indexed {A B : Type} (f : A -> nat -> B) (l : list A) (index : nat)
  : list B :=
  match l with
  | [] => []
  | x :: rest => f x index :: map_indexed f rest (S index)
  end.

Definition ingredientData (ingredients : list RecipeIngredient) : list Slice.t :=
  map_indexed slice ingredients 0.

(* ================================================================== *)
(** * More of the report component: tables 1 to 3 and the key findings *)
(* ================================================================== *)

(** A table cell: a dash, a number printed as it is, or a [toFixed]
    numeral (the percent or yen sign next to it is fixed text). *)
Inductive Cell : Type :=
| Dash
| Plain (n : JS.number)
| Printed (f : JS.fixed).





(** A row of Table 2. *)
Record IngredientRow : Type := {
  ing_weight : JS.fixed;
  ing_weight_pct : JS.fixed;
  ing_energy : Cell;
  ing_energy_pct : Cell;
  ing_cost : Cell
}.

(** [x ? f(x) : '-'] and [x || '-'] on an optional number. *)
Definition cell_if (x : option JS.number) (f : JS.number -> Cell) : Cell :=
  match x with
  | Some v => if JS.truthy v then f v else Dash
  | None => Dash
  end.

Definition ingredient_row (rd : RecipeData) (ingredient : RecipeIngredient)
  : IngredientRow :=
  {| ing_weight := JS.toFixed 1 (amount_g ingredient);
     ing_weight_pct := JS.toFixed 1 (percentage ingredient);
     ing_energy := cell_if (calories ingredient) Plain;
     ing_energy_pct :=
       cell_if (calories ingredient)
         (fun c => Printed (JS.toFixed 1 ((c / actual_calories rd) * num 100)%js));
     ing_cost := cell_if (cost ingredient) (fun c => Printed (JS.toFixed 2 c)) |}.

Definition ingredient_table (rd : RecipeData) : list IngredientRow :=
  map (ingredient_row rd) (ingredients rd).

(** A row of Table 3. *)
Record ComplianceRow : Type := {
  shown_nutrient : string;
  shown_actual : JS.fixed;
  shown_min : Cell;
  shown_max : Cell;
  shown_status : string;
  shown_ratio : Cell
}.

(** [bound?.toFixed(1) || '-']: the numeral is never an empty string, so
    only a missing bound gives the dash. *)
Definition bound_cell (bound : option JS.number) : Cell :=
  match bound with
  | Some b => Printed (JS.toFixed 1 b)
  | None => Dash
  end.

Definition compliance_table_row (item : Compliance.t) : ComplianceRow :=
  {| shown_nutrient := Compliance.nutrient item;
     shown_actual := JS.toFixed 1 (Compliance.actual item);
     shown_min := bound_cell (Compliance.required_min item);
     shown_max := bound_cell (Compliance.required_max item);
     shown_status := Compliance.status item;
     shown_ratio :=
       cell_if (Compliance.required_min item)
         (fun m => Printed (JS.toFixed 0 (Compliance.actual item / m * num 100)%js)) |}.

Definition compliance_table (c : list Compliance.t) : list ComplianceRow :=
  map compliance_table_row c.

(** "Key Findings": protein and fat adequacy, against the literals 45.0 and
    13.8. *)
Definition finding_protein_adequacy (density : NutrientDensity) : JS.fixed :=
  JS.toFixed 0 ((protein density / num 45.0) * num 100)%js.

Definition finding_fat_adequacy (density : NutrientDensity) : JS.fixed :=
  JS.toFixed 0 ((fat density / num 13.8) * num 100)%js.

(* ================================================================== *)
(** * More of the API client: [petAPI.createPet] *)
(* ================================================================== *)

Inductive ActivityLevel : Type :=
| SEDENTARY_ACTIVE
| LOW_ACTIVE
| MODERATE_ACTIVE
| HIGH_ACTIVE
| EXTREME_ACTIVE.

Inductive PhysiologicalStatus : Type :=
| INTACT
| NEUTERED
| PREGNANT
| LACTATING.

Definition PhysiologicalStatus_value (p : PhysiologicalStatus) : string :=
  match p with
  | INTACT => "intact"
  | NEUTERED => "neutered"
  | PREGNANT => "pregnant"
  | LACTATING => "lactating"
  end.

Record PetFormData : Type := {
  form_name : string;
  form_species : string;
  form_breed : string;
  form_age_months : JS.number;
  form_weight_kg : JS.number;
  form_activity_level : ActivityLevel;
  form_physiological_status : PhysiologicalStatus;
  form_health_conditions : list string;
  form_allergies : list string;
  form_lactation_week : option JS.number;
  form_nursing_count : option JS.number
}.

(** The [apiData] object; a field that is [null] or left out is [None]. *)
Record PetApiData : Type := {
  sent_name : option string;
  sent_species : string;
  sent_breed : option string;
  sent_age_months : JS.number;
  sent_weight_kg : JS.number;
  sent_activity_level : ActivityLevel;
  sent_physiological_status : PhysiologicalStatus;
  sent_life_stage : LifeStage;
  sent_health_conditions : list string;
  sent_allergies : option (list string);
  sent_lactation_week : option JS.number;
  sent_nursing_count : option JS.number
}.

(** [s || null] *)
Definition string_or_null (s : string) : option string :=
  if JS.truthy_str s then Some s else None.

Definition createPet_apiData (petData : PetFormData) : PetApiData :=
  let lactating :=
    String.eqb (PhysiologicalStatus_value (form_physiological_status petData))
               "lactating" in
  {| sent_name := string_or_null (form_name petData);
     sent_species := form_species petData;
     sent_breed := string_or_null (form_breed petData);
     sent_age_months := form_age_months petData;
     sent_weight_kg := form_weight_kg petData;
     sent_activity_level := form_activity_level petData;
     sent_physiological_status := form_physiological_status petData;
     sent_life_stage :=
       calculateLifeStage (form_species petData) (form_age_months petData);
     sent_health_conditions := form_health_conditions petData;
     sent_allergies := None;
     sent_lactation_week :=
       if lactating
       then Some (JS.or_num (form_lactation_week petData) (num 4))
       else None;
     sent_nursing_count :=
       if lactating
       then Some (JS.or_num (form_nursing_count petData) (num 1))
       else None |}.

(** [petAPI.createPet]: post the transformed data, hand back
    [response.data], throw again whatever was thrown. *)
Definition createPet {A : Type} (post : PetApiData -> Promise A)
    (petData : PetFormData) : Promise A :=
  try_catch
    (data <- post (createPet_apiData petData) ;; Resolved data)
    (fun e => Rejected e).

(* ================================================================== *)
(** * The pet form ([components/forms/PetForm.tsx]) *)
(* ================================================================== *)

Definition initialFormData : PetFormData :=
  {| form_name := "Max";
     form_species := "dog";
     form_breed := "Golden Retriever";
     form_age_months := num 12;
     form_weight_kg := num 10;
     form_activity_level := MODERATE_ACTIVE;
     form_physiological_status := INTACT;
     form_health_conditions := [];
     form_allergies := [];
     form_lactation_week := None;
     form_nursing_count := None |}.

(** What the user can do to the form; the texts are [e.target.value]. *)
Inductive FormEvent : Type :=
| EditName (text : string)
| ChooseDog
| ChooseCat
| EditBreed (text : string)
| EditAge (text : string)
| EditWeight (text : string)
| ChooseActivity (a : ActivityLevel)
| ChooseStatus (p : PhysiologicalStatus)
| EditLactationWeek (text : string)
| EditNursingCount (text : string)
| ResetForm.

Section PetFormState.

(** The built-ins [parseInt] and [parseFloat]: any functions from text to
    numbers ([NaN] for text that is no number). *)
Variable parseInt : string -> JS.number.
Variable parseFloat : string -> JS.number.

(** [setFormData(prev => ({ ...prev, field: ... }))] for each handler. *)
Definition formUpdate (prev : PetFormData) (ev : FormEvent) : PetFormData :=
  match ev with
  | ResetForm => initialFormData
  | _ =>
      {| form_name :=
           match ev with EditName t => t | _ => form_name prev end;
         form_species :=
           match ev with
           | ChooseDog => "dog"
           | ChooseCat => "cat"
           | _ => form_species prev
           end;
         form_breed :=
           match ev with
           | ChooseDog => "Golden Retriever"
           | ChooseCat => "Ragdoll"
           | EditBreed t => t
           | _ => form_breed prev
           end;
         form_age_months :=
           match ev with
           | EditAge t => JS.or_num (Some (parseInt t)) (num 0)
           | _ => form_age_months prev
           end;
         form_weight_kg :=
           match ev with
           | EditWeight t => JS.or_num (Some (parseFloat t)) (num 0)
           | _ => form_weight_kg prev
           end;
         form_activity_level :=
           match ev with ChooseActivity a => a | _ => form_activity_level prev end;
         form_physiological_status :=
           match ev with
           | ChooseStatus p => p
           | _ => form_physiological_status prev
           end;
         form_health_conditions := form_health_conditions prev;
         form_allergies := form_allergies prev;
         form_lactation_week :=
           match ev with
           | EditLactationWeek t => Some (JS.or_num (Some (parseInt t)) (num 4))
           | _ => form_lactation_week prev
           end;
         form_nursing_count :=
           match ev with
           | EditNursingCount t => Some (JS.or_num (Some (parseInt t)) (num 1))
           | _ => form_nursing_count prev
           end |}
  end.

(** The form after a sequence of events, starting from the initial data. *)
Definition formAfter (events : list FormEvent) : PetFormData :=
  fold_left formUpdate events initialFormData.

End PetFormState.

(* ================================================================== *)
(** * The application shell ([MainApp]) *)
(* ================================================================== *)

Module AppPet.
(** The stored pet, as far as the shell reads it. *)
Record t : Type := {
  id : option Z;
  daily_calories_kcal : option JS.number
}.
End AppPet.

Record AppState : Type := {
  app_pet : option AppPet.t;
  app_recipe : option RecipeResult;
  app_isLoading : bool;
  app_isGenerating : bool;
  app_currentStep : Z
}.

Inductive Page : Type :=
| LoadingPage (message : string) (submessage : option string)
| HomepagePage
| PetFormPage
| GeneratingPage
| RecipeResultPage (r : RecipeResult)
| RecipeErrorPage (reason : JS.value).

(** What [MainApp] puts in its main area: the early return for the loading
    flags, then [renderCurrentStep]. *)
Definition MainApp_page (s : AppState) : Page :=
  if app_isLoading s || app_isGenerating s then
    LoadingPage
      (if app_isLoading s then "Creating pet profile..."
       else "Generating nutrition recipe...")
      (if app_isGenerating s
       then Some "This may take a few seconds, please wait"
       else None)
  else
    match app_currentStep s with
    | 0%Z => HomepagePage
    | 1%Z =>
        match app_pet s with
        | None => PetFormPage
        | Some _ => GeneratingPage
        end
    | 2%Z =>
        match app_recipe s with
        | Some r =>
            if String.eqb (status r) "Success" then RecipeResultPage r
            else if String.eqb (status r) "Error" then RecipeErrorPage (error r)
            else HomepagePage
        | None => HomepagePage
        end
    | _ => HomepagePage
    end.

(** [handleGenerateRecipe]: the request it hands to the store, or nothing
    when its guard returns early. *)
Definition handleGenerateRecipe_request (pet : option AppPet.t)
    (isGenerating hasTriggeredGeneration : bool)
  : option RecipeGenerationRequest :=
  match pet with
  | Some p =>
      match AppPet.id p with
      | Some i =>
          if Z.eqb i 0 || isGenerating || hasTriggeredGeneration then None
          else Some {| req_pet_id := i;
                       req_target_calories := AppPet.daily_calories_kcal p;
                       req_preferred_weight_g := None |}
      | None => None
      end
  | None => None
  end.

(* ================================================================== *)
(** * The hook's arithmetic in binary64 *)
(* ================================================================== *)

(** ** Binary64 numbers

    The numbers of the engine, bit for bit: IEEE-754 binary64 with both
    zeros, both infinities and [NaN], every operation rounded to nearest,
    ties to even. *)

Module F64.

Definition float : Type := spec_float.

Definition prec : Z := 53.
Definition emax : Z := 1024.

Definition PosZero : float := S754_zero false.
Definition NegZero : float := S754_zero true.
Definition PosInf : float := S754_infinity false.
Definition NegInf : float := S754_infinity true.
Definition NaN : float := S754_nan.

(** The binary64 number nearest to [n / d]. *)
Definition round_quotient (negative : bool) (n d : positive) : float :=
  let '(m, e, l) := SFdiv_core_binary prec emax (Zpos n) 0 (Zpos d) 0 in
  binary_round_aux prec emax negative m e l.

(** A decimal literal of the source: the binary64 number nearest to it. *)
Definition lit (q : Q) : float :=
  match Qnum q with
  | Z0 => PosZero
  | Zpos n => round_quotient false n (Qden q)
  | Zneg n => round_quotient true n (Qden q)
  end.

Definition add (x y : float) : float := SFadd prec emax x y.
Definition mul (x y : float) : float := SFmul prec emax x y.
Definition div (x y : float) : float := SFdiv prec emax x y.

(** [x < y]: false as soon as one side is [NaN]; the two zeros are equal. *)
Definition ltb (x y : float) : bool := SFltb x y.

(** Truthiness: [0], [-0] and [NaN] are falsy. *)
Definition truthy (x : float) : bool :=
  match x with
  | S754_zero _ | S754_nan => false
  | _ => true
  end.

(** [x || d] for an optional number [x]. *)
Definition or_num (x : option float) (d : float) : float :=
  match x with
  | Some v => if truthy v then v else d
  | None => d
  end.

(** The value a binary64 number denotes, exactly. *)
Definition to_number (x : float) : JS.number :=
  match x with
  | S754_zero _ => JS.Fin (Q2Qc 0)
  | S754_infinity false => JS.PosInf
  | S754_infinity true => JS.NegInf
  | S754_nan => JS.NaN
  | S754_finite s m e =>
      JS.Fin (Q2Qc (inject_Z (if s then Zneg m else Zpos m) * Qpower 2 e))
  end.

(** [x.toFixed(d)]: the numeral is chosen from the exact value of [x]. *)
Definition toFixed (d : nat) (x : float) : JS.fixed :=
  JS.toFixed d (to_number x).

End F64.

Declare Scope f64_scope.
Delimit Scope f64_scope with f64.

Notation "x + y" := (F64.add x y) : f64_scope.
Notation "x * y" := (F64.mul x y) : f64_scope.
Notation "x / y" := (F64.div x y) : f64_scope.
Notation "x <? y" := (F64.ltb x y) : f64_scope.
Arguments F64.lit q%_Q.

(** ** [nutrientDensity] and [macroData] on binary64 numbers

    The two memoised computations of the hook whose results depend on how
    the engine rounds, with every operation in the order the source writes
    it.  The records carry the numeric fields these computations read. *)

Module Binary64.

Record NutritionAnalysis : Type := {
  total_calories_kcal : F64.float;
  protein_g : F64.float;
  fat_g : F64.float;
  carbohydrate_g : F64.float;
  fiber_g : option F64.float
}.

Record RecipeData : Type := {
  total_weight_g : F64.float;
  target_calories : F64.float;
  actual_calories : F64.float;
  energy_accuracy : F64.float
}.

Record NutrientDensity : Type := {
  protein : F64.float;
  fat : F64.float;
  carbohydrate : F64.float;
  fiber : F64.float
}.

Definition nutrientDensity (recipeData : RecipeData)
    (nutrition : NutritionAnalysis) : NutrientDensity :=
  let factor := (F64.lit 1000 / actual_calories recipeData)%f64 in
  {| protein := (protein_g nutrition * factor)%f64;
     fat := (fat_g nutrition * factor)%f64;
     carbohydrate := (carbohydrate_g nutrition * factor)%f64;
     fiber := (F64.or_num (fiber_g nutrition) (F64.lit 0) * factor)%f64 |}.

Module Macro.
Record t : Type := {
  name : string;
  value : F64.float;
  percentage : JS.fixed;
  color : string;
  calories : F64.float
}.
End Macro.

Definition macroData (nutrition : NutritionAnalysis) : list Macro.t :=
  let p := protein_g nutrition in
  let f := fat_g nutrition in
  let c := carbohydrate_g nutrition in
  let total := (p + f + c)%f64 in
  [ {| Macro.name := "Protein";
       Macro.value := p;
       Macro.percentage := F64.toFixed 1 ((p / total) * F64.lit 100)%f64;
       Macro.color := MACRO_COLORS.protein;
       Macro.calories := (p * F64.lit 4)%f64 |};
    {| Macro.name := "Fat";
       Macro.value := f;
       Macro.percentage := F64.toFixed 1 ((f / total) * F64.lit 100)%f64;
       Macro.color := MACRO_COLORS.fat;
       Macro.calories := (f * F64.lit 9)%f64 |};
    {| Macro.name := "Carbohydrate";
       Macro.value := c;
       Macro.percentage := F64.toFixed 1 ((c / total) * F64.lit 100)%f64;
       Macro.color := MACRO_COLORS.carbs;
       Macro.calories := (c * F64.lit 4)%f64 |} ].

End Binary64.

(* ================================================================== *)
(** * Vocabulary of the specification *)
(* ================================================================== *)

(** The minimum of a row is a strictly positive (finite) number. *)
Definition min_positive (s : Standard) : Prop :=
  exists q, min s = Some (JS.Fin q) /\ (Q2Qc 0 < q)%Qc.

(** A maximum that is not [null] is a number at least as large as the
    minimum. *)
Definition min_le_max (s : Standard) : Prop :=
  forall mx, max s = Some mx ->
    exists q q', min s = Some (JS.Fin q) /\ mx = JS.Fin q' /\ (q <= q')%Qc.

(** The two conditions, decided. *)
Definition standard_okb (s : Standard) : bool :=
  match min s with
  | Some (JS.Fin q) =>
      match (Q2Qc 0 ?= q)%Qc with
      | Lt =>
          match max s with
          | None => true
          | Some (JS.Fin q') =>
              match (q ?= q')%Qc with Gt => false | _ => true end
          | Some _ => false
          end
      | _ => false
      end
  | _ => false
  end.

(** The classification in the words of the specification: below the
    minimum, else above the maximum, else adequate. *)
Definition status_of (actual : JS.number) (mn mx : option JS.number) : string :=
  if match mn with Some m => (actual <? m)%js | None => false end
  then "DEFICIENT"
  else if match mx with Some m => (actual >? m)%js | None => false end
  then "EXCESSIVE"
  else "ADEQUATE".

(** The same recipe with another calorie target. *)
Definition with_target_calories (t : F64.float) (rd : Binary64.RecipeData)
  : Binary64.RecipeData :=
  {| Binary64.total_weight_g := Binary64.total_weight_g rd;
     Binary64.target_calories := t;
     Binary64.actual_calories := Binary64.actual_calories rd;
     Binary64.energy_accuracy := Binary64.energy_accuracy rd |}.

(** What the claim reads as the density: grams times 1000, divided by the
    calories. *)
Definition times_1000_over (grams kcal : F64.float) : F64.float :=
  (grams * F64.lit 1000 / kcal)%f64.

(** The density of [grams] in a recipe whose calories are a zero of sign
    [s]. *)
Definition density_at_zero (s : bool) (grams : F64.float) : F64.float :=
  match grams with
  | S754_zero _ | S754_nan => F64.NaN
  | S754_infinity sg | S754_finite sg _ _ => S754_infinity (xorb sg s)
  end.

(** The [error] field of the synthesised result is a string as soon as
    [detail] is one, or is missing. *)
Definition detail_is_text (v : JS.value) : Prop :=
  v = JS.VUndefined \/ v = JS.VNull \/ exists s, v = JS.VStr s.

(** The sum of what the numerals denote. *)
Definition sum_values (l : list JS.fixed) : JS.number :=
  fold_left (fun acc f => (acc + JS.fixed_value f)%js) l (num 0).

(* ================================================================== *)
(** * Sample inputs *)
(* ================================================================== *)

Definition dog_adult_calcium : Standard :=
  {| min := Some (num 1.25 * num 1000)%js;
     max := Some (num 6.25 * num 1000)%js;
     unit := "MG";
     nutrient_id := CALCIUM |}.

Definition sample_density : NutrientDensity :=
  {| protein := num 50; fat := num 13.8; carbohydrate := num 10;
     fiber := num 0 |}.

Definition dog_adult_fat : Standard :=
  {| min := Some (num 13.8); max := null; unit := "G"; nutrient_id := FAT |}.

Definition sample_fat_row : Compliance.t :=
  compliance_row
    {| Main.id := FAT; Main.name := "Fat"; Main.actual := fat sample_density |}
    dog_adult_fat.

Definition sample_nutrition (fiber : option JS.number) : NutritionAnalysis :=
  {| total_calories_kcal := num 500;
     protein_g := num 30;
     fat_g := num 10;
     carbohydrate_g := num 20;
     fiber_g := fiber |}.

Definition sample_analysis (fiber : option JS.number) : Analysis :=
  {| nutrition := sample_nutrition fiber;
     efficiency :=
       {| caloric_density_kcal_per_g := num 2;
          cost_efficiency_cost_per_kcal := num 0.01;
          ingredient_count := num 3;
          eff_weight_category := "Normal" |};
     aafco_compliance :=
       {| compliant := true; violations := []; score := num 95 |};
     cost_analysis := Some {| total_cost := num 5; cost_per_kg := num 20 |};
     weight_analysis := None |}.

Definition sample_recipe : RecipeData :=
  {| pet_id := 1;
     total_weight_g := num 250;
     target_calories := num 520;
     actual_calories := num 500;
     energy_accuracy := num 96;
     ingredients := [] |}.

Definition sample_protein_row : Compliance.t :=
  compliance_row
    {| Main.id := PROTEIN; Main.name := "Protein";
       Main.actual := protein sample_density |}
    {| min := Some (num 45.0); max := null; unit := "G"; nutrient_id := PROTEIN |}.

Definition sample_result : RecipeResult :=
  {| status := "Success";
     error := JS.VUndefined;
     recipe := sample_recipe;
     analysis := sample_analysis None |}.

Definition sample_request : RecipeGenerationRequest :=
  {| req_pet_id := 7;
     req_target_calories := Some (num 520);
     req_preferred_weight_g := None |}.

Definition network_error : JsError :=
  {| isAxiosError := true; message := "Network Error"; detail := JS.VUndefined |}.

Definition post_unreachable : ApiRequest -> Promise ResponseData :=
  fun _ => Rejected network_error.

Definition infeasible_answer : ResponseData :=
  {| data_status := "Error";
     data_error := Some "no feasible nutrient-adequate composition";
     data_recipe := None;
     data_analysis := None |}.

Definition post_infeasible : ApiRequest -> Promise ResponseData :=
  fun _ => Resolved infeasible_answer.

Definition failed_answer : ResponseData :=
  {| data_status := "Failed";
     data_error := None;
     data_recipe := Some sample_recipe;
     data_analysis := Some (sample_analysis None) |}.

Definition post_failed : ApiRequest -> Promise ResponseData :=
  fun _ => Resolved failed_answer.

Definition failed_result : RecipeResult :=
  {| status := "Failed";
     error := JS.VUndefined;
     recipe := sample_recipe;
     analysis := sample_analysis None |}.

(** One gram of each macronutrient. *)
Definition macro_sample : Binary64.NutritionAnalysis :=
  {| Binary64.total_calories_kcal := F64.lit 17;
     Binary64.protein_g := F64.lit 1;
     Binary64.fat_g := F64.lit 1;
     Binary64.carbohydrate_g := F64.lit 1;
     Binary64.fiber_g := None |}.

(** 5 g of protein and 1.38 g of fat without fiber figure. *)
Definition lean_nutrition : Binary64.NutritionAnalysis :=
  {| Binary64.total_calories_kcal := F64.lit 3;
     Binary64.protein_g := F64.lit 5;
     Binary64.fat_g := F64.lit 1.38;
     Binary64.carbohydrate_g := F64.lit 0;
     Binary64.fiber_g := None |}.

(** A recipe of [kcal] actual calories (the target is another number). *)
Definition recipe_of_kcal (kcal : F64.float) : Binary64.RecipeData :=
  {| Binary64.total_weight_g := F64.lit 100;
     Binary64.target_calories := F64.lit 520;
     Binary64.actual_calories := kcal;
     Binary64.energy_accuracy := F64.lit 96 |}.

(** 30 g of protein, no fat, an infinite amount of carbohydrate. *)
Definition odd_nutrition : Binary64.NutritionAnalysis :=
  {| Binary64.total_calories_kcal := F64.lit 0;
     Binary64.protein_g := F64.lit 30;
     Binary64.fat_g := F64.lit 0;
     Binary64.carbohydrate_g := F64.PosInf;
     Binary64.fiber_g := Some (F64.lit 2) |}.

(** Densities with too little protein and the fat exactly on its minimum. *)
Definition low_protein_density : NutrientDensity :=
  {| protein := num 10; fat := num 13.8; carbohydrate := num 10;
     fiber := num 0 |}.

(** The status every mineral row gets in a life stage. *)
Definition mineral_status (stage : LifeStage) : string :=
  match stage with
  | DOG_ADULT => "ADEQUATE"
  | _ => "DEFICIENT"
  end.

(** The order in which a status can change as the actual value grows. *)
Definition status_rank (s : string) : nat :=
  if String.eqb s "DEFICIENT" then 0
  else if String.eqb s "EXCESSIVE" then 2
  else 1.

Definition sample_puppy_density : NutrientDensity :=
  {| protein := num 25; fat := num 30; carbohydrate := num 10; fiber := num 0 |}.

Definition sample_chicken : RecipeIngredient :=
  {| fdc_id := 171077;
     description := "Chicken, broilers or fryers, breast";
     amount_g := num 150;
     percentage := num 60;
     cost := Some (num 3.5);
     calories := Some (num 300);
     category := Some "protein" |}.

Definition sample_rice : RecipeIngredient :=
  {| fdc_id := 169756;
     description := "Rice, white";
     amount_g := num 100;
     percentage := num 40;
     cost := Some (num 0);
     calories := None;
     category := Some "grain" |}.

(** A backend answer that says "Success" but carries no recipe. *)
Definition hollow_answer : ResponseData :=
  {| data_status := "Success";
     data_error := None;
     data_recipe := None;
     data_analysis := Some (sample_analysis None) |}.

Definition post_hollow : ApiRequest -> Promise ResponseData :=
  fun _ => Resolved hollow_answer.

Definition success_answer : ResponseData :=
  {| data_status := "Success";
     data_error := None;
     data_recipe := Some sample_recipe;
     data_analysis := Some (sample_analysis None) |}.

Definition post_success : ApiRequest -> Promise ResponseData :=
  fun _ => Resolved success_answer.

(** The shell once generation is over and the result step is reached. *)
Definition result_step (pet : option AppPet.t) (r : RecipeResult) : AppState :=
  {| app_pet := pet;
     app_recipe := Some r;
     app_isLoading := false;
     app_isGenerating := false;
     app_currentStep := 2 |}.

Definition sample_pet : AppPet.t :=
  {| AppPet.id := Some 7%Z; AppPet.daily_calories_kcal := Some (num 520) |}.

(** The data of a nursing mother, as the form could hold them with the
    lactation week never touched. *)
Definition nursing_form : PetFormData :=
  {| form_name := "";
     form_species := "cat";
     form_breed := "Ragdoll";
     form_age_months := num 30;
     form_weight_kg := num 4;
     form_activity_level := MODERATE_ACTIVE;
     form_physiological_status := LACTATING;
     form_health_conditions := [];
     form_allergies := [];
     form_lactation_week := None;
     form_nursing_count := Some (num 5) |}.

(** What the form guarantees about its data, whatever was typed. *)
Definition form_ok (f : PetFormData) : Prop :=
  (form_species f = "dog" \/ form_species f = "cat") /\
  form_age_months f <> JS.NaN /\
  form_weight_kg f <> JS.NaN /\
  (forall w, form_lactation_week f = Some w -> JS.truthy w = true) /\
  (forall n, form_nursing_count f = Some n -> JS.truthy n = true) /\
  form_health_conditions f = [] /\
  form_allergies f = [].

(** A [parseInt] that understands nothing: every text is [NaN]. *)
Definition parse_nothing : string -> JS.number := fun _ => JS.NaN.

Definition puppy_details : PetDetails :=
  {| pd_species := Some "dog";
     pd_life_stage := Some DOG_PUPPY;
     pd_age_months := Some (num 5) |}.



(** The text the interceptor assembles when nothing better is at hand. *)
Definition describe_message : JsError -> string :=
  fun e => JS.or_str (Some (message e)) "Network error".

(** A validation failure: the backend's [detail] is an array of objects. *)
Definition validation_error : JsError :=
  {| isAxiosError := true;
     message := "Request failed with status code 422";
     detail := JS.VObj |}.

Definition post_invalid : ApiRequest -> Promise ResponseData :=
  fun _ => Rejected validation_error.

(* ================================================================== *)
(** * Facts about the number model *)
(* ================================================================== *)

Module JSFacts.
Import JS.

Lemma this_lit (q : Q) : this (Q2Qc q) == q.
Proof. apply Qred_correct. Qed.

Lemma this_mul (a b : Qc) : this (a * b)%Qc == this a * this b.
Proof. apply Qred_correct. Qed.

Lemma this_add (a b : Qc) : this (a + b)%Qc == this a + this b.
Proof. apply Qred_correct. Qed.

Lemma this_opp (a : Qc) : this (- a)%Qc == - this a.
Proof. apply Qred_correct. Qed.

Lemma this_inv (a : Qc) : this (/ a)%Qc == / this a.
Proof. apply Qred_correct. Qed.

Lemma this_div (a b : Qc) : this (a / b)%Qc == this a / this b.
Proof. unfold Qcdiv. rewrite this_mul, this_inv. reflexivity. Qed.

Lemma sgn_Q (a : Qc) : sgn a = (this a ?= 0)%Q.
Proof. unfold sgn, Qccompare. now rewrite this_lit. Qed.

Lemma Qccompare_refl (a : Qc) : (a ?= a)%Qc = Eq.
Proof. now apply (proj1 (Qceq_alt a a)). Qed.

Lemma ltb_irrefl (x : number) : (x <? x)%js = false.
Proof.
  destruct x as [a| | |]; simpl; try reflexivity.
  now rewrite Qccompare_refl.
Qed.

Lemma leb_not_gtb (x y : number) : (x <=? y)%js = true -> (y <? x)%js = false.
Proof.
  unfold leb. destruct x, y; simpl; intros H; try discriminate; try reflexivity;
    now apply negb_true_iff in H.
Qed.

(** [Math.min(_, c)] is never above [c]. *)
Lemma Math_min_cap (x c : number) : (c <? Math_min x c)%js = false.
Proof.
  destruct x as [a| | |], c as [b| | |]; simpl; try reflexivity;
    rewrite ?Qccompare_refl; try reflexivity.
  destruct (a ?= b)%Qc eqn:E; simpl; rewrite ?Qccompare_refl; try reflexivity.
  unfold Qccompare in *. rewrite <- Qcompare_antisym, E. reflexivity.
Qed.

End JSFacts.

(** Closed equations between numbers: evaluate, then compare the canonical
    fractions. *)
Ltac js_refl :=
  vm_compute;
  first [ reflexivity
        | apply (f_equal JS.Fin); apply Qc_is_canon; reflexivity ].

(* ================================================================== *)
(** * The AAFCO table is well formed *)
(* ================================================================== *)

Lemma standard_okb_spec (s : Standard) :
  standard_okb s = true -> min_positive s /\ min_le_max s.
Proof.
  unfold standard_okb, min_positive, min_le_max.
  destruct (min s) as [[q| | |]|]; try discriminate.
  destruct (Q2Qc 0 ?= q)%Qc eqn:Hpos; try discriminate.
  intros H. split.
  - exists q. split; [reflexivity | now apply Qclt_alt].
  - intros mx Hmx. rewrite Hmx in H.
    destruct mx as [q'| | |]; try discriminate.
    exists q, q'. repeat split.
    apply Qcle_alt. destruct (q ?= q')%Qc; congruence.
Qed.

Lemma AAFCO_rows_okb (stage : LifeStage) :
  forallb (fun row => standard_okb (snd row)) (AAFCO_STANDARDS stage) = true.
Proof. destruct stage; vm_compute; reflexivity. Qed.

Lemma AAFCO_row_ok (stage : LifeStage) (id : Z) (s : Standard) :
  In (id, s) (AAFCO_STANDARDS stage) -> standard_okb s = true.
Proof.
  intros Hin.
  pose proof (AAFCO_rows_okb stage) as H.
  rewrite forallb_forall in H. exact (H (id, s) Hin).
Qed.

Lemma lookup_In (id : Z) (rows : list (Z * Standard)) (s : Standard) :
  lookup id rows = Some s -> In (id, s) rows.
Proof.
  induction rows as [|[k r] rows IH]; simpl; [discriminate|].
  destruct (Z.eqb_spec k id) as [->|_].
  - intros [= ->]. now left.
  - intros H. right. now apply IH.
Qed.

(** No key occurs twice in a life stage, so reading the object literal
    front to back finds the row JavaScript keeps. *)
Lemma AAFCO_keys_NoDup (stage : LifeStage) :
  NoDup (map fst (AAFCO_STANDARDS stage)).
Proof.
  destruct stage; simpl;
    repeat (constructor; [simpl; intuition discriminate|]); constructor.
Qed.

(** C8.  In every life stage of [AAFCO_STANDARDS], every nutrient entry has a
    strictly positive minimum, and a maximum that is not [null] is at least
    the minimum. *)
Theorem aafco_min_positive_and_below_max :
  forall (stage : LifeStage) (id : Z) (s : Standard),
    In (id, s) (AAFCO_STANDARDS stage) ->
    min_positive s /\ min_le_max s.
Proof.
  intros stage id s Hin.
  apply standard_okb_spec. exact (AAFCO_row_ok stage id s Hin).
Qed.

Lemma aafco_min_positive_and_below_max_witness :
  min_positive dog_adult_calcium /\ min_le_max dog_adult_calcium.
Proof.
  apply (aafco_min_positive_and_below_max DOG_ADULT CALCIUM).
  simpl. do 3 right. left. reflexivity.
Defined.

(* ================================================================== *)
(** * Compliance rows *)
(* ================================================================== *)

(** Every row of the array was pushed for some nutrient that has a
    standard. *)
Lemma fold_compliance_In (rows : list (Z * Standard)) (ns : list Main.t) :
  forall (acc : list Compliance.t) (item : Compliance.t),
    In item (fold_left (compliance_step rows) ns acc) ->
    In item acc \/
    exists n standard,
      In n ns /\ lookup (Main.id n) rows = Some standard /\
      item = compliance_row n standard.
Proof.
  induction ns as [|n ns IH]; intros acc item Hin; simpl in Hin.
  - now left.
  - apply IH in Hin. destruct Hin as [Hacc | (n' & st & Hn' & Hl & ->)].
    + unfold compliance_step in Hacc.
      destruct (lookup (Main.id n) rows) as [st|] eqn:Hl.
      * apply in_app_or in Hacc. destruct Hacc as [Hacc | [<- | []]].
        -- now left.
        -- right. exists n, st. repeat split; [now left | assumption].
      * now left.
    + right. exists n', st. repeat split; [now right | assumption].
Qed.

Lemma complianceData_row (d : NutrientDensity) (stage : LifeStage)
      (item : Compliance.t) :
  In item (complianceData d stage) ->
  exists n standard,
    In n (mainNutrients d) /\
    In (Main.id n, standard) (AAFCO_STANDARDS stage) /\
    item = compliance_row n standard.
Proof.
  intros Hin. apply fold_compliance_In in Hin.
  destruct Hin as [[] | (n & st & Hn & Hl & ->)].
  exists n, st. repeat split; [assumption | now apply lookup_In].
Qed.

(** All five main nutrients have a standard in every life stage. *)
Lemma complianceData_shape (d : NutrientDensity) (stage : LifeStage) :
  map Compliance.nutrient (complianceData d stage)
  = ["Protein"; "Fat"; "Calcium"; "Phosphorus"; "Iron"].
Proof. destruct stage; reflexivity. Qed.

(** ** A row that passes the table check *)

Section WellFormedRow.

Variable s : Standard.
Hypothesis Hok : standard_okb s = true.

Lemma okb_min : exists q, min s = Some (JS.Fin q) /\ JS.sgn q = Gt.
Proof.
  revert Hok. unfold standard_okb.
  destruct (min s) as [[q| | |]|]; try discriminate.
  destruct (Q2Qc 0 ?= q)%Qc eqn:Hpos; try discriminate.
  intros _. exists q. split; [reflexivity|].
  unfold JS.sgn, Qccompare in *. now rewrite <- Qcompare_antisym, Hpos.
Qed.

Lemma okb_max :
  max s = None \/
  exists q q', min s = Some (JS.Fin q) /\ max s = Some (JS.Fin q') /\
               JS.sgn q' = Gt /\ (q ?= q')%Qc <> Gt.
Proof.
  destruct okb_min as (q & Hq & Hs).
  pose proof Hok as H. unfold standard_okb in H. rewrite Hq in H.
  destruct (Q2Qc 0 ?= q)%Qc eqn:Hpos; try discriminate.
  destruct (max s) as [[q'| | |]|]; try discriminate; [right | now left].
  assert (Hc : (q ?= q')%Qc <> Gt) by (destruct (q ?= q')%Qc; congruence).
  exists q, q'. split; [assumption|]. split; [reflexivity|]. split; [|assumption].
  rewrite JSFacts.sgn_Q in *. apply (proj1 (Qgt_alt _ _)).
  apply (proj2 (Qgt_alt _ _)) in Hs.
  apply (proj2 (Qcle_alt _ _)) in Hc. unfold Qcle in Hc.
  revert Hs Hc. generalize (this q) (this q'). intros x y ? ?. lra.
Qed.

(** The truthiness guards never fire, and the code computes the specified
    classification. *)
Lemma classify_status_of (a : JS.number) :
  classify s a = status_of a (min s) (max s).
Proof.
  unfold classify, status_of, guarded.
  destruct okb_min as (q & Hmin & Hq).
  destruct okb_max as [Hmax | (q0 & q' & _ & Hmax & Hq' & _)];
    rewrite Hmin, Hmax; simpl; rewrite ?Hq, ?Hq'; reflexivity.
Qed.

(** A value sitting on either bound is adequate. *)
Lemma status_of_boundary (a : JS.number) :
  min s = Some a \/ max s = Some a ->
  status_of a (min s) (max s) = "ADEQUATE".
Proof.
  intros Hb. unfold status_of.
  destruct okb_min as (q & Hmin & _).
  destruct okb_max as [Hmax | (q0 & q' & Hmin' & Hmax & _ & Hle)].
  - rewrite Hmin, Hmax in *. destruct Hb as [[= <-] | [=]].
    now rewrite JSFacts.ltb_irrefl.
  - rewrite Hmin' in Hmin. injection Hmin as ->.
    rewrite Hmin', Hmax in *. unfold JS.gtb.
    destruct Hb as [[= <-] | [= <-]]; rewrite JSFacts.ltb_irrefl; simpl.
    + unfold Qccompare in *. rewrite <- Qcompare_antisym.
      destruct (this q ?= this q')%Q; simpl; congruence.
    + unfold Qccompare in *. rewrite <- Qcompare_antisym.
      destruct (this q ?= this q')%Q; simpl; congruence.
Qed.

End WellFormedRow.

(** C1.  Every main nutrient has a standard in every life stage, and the
    compliance data hold, at the nutrient's own position, a row with its
    name and actual value, with the minimum and the maximum of that
    standard, and with the status the specification asks for: DEFICIENT
    when the actual value is strictly below the minimum, otherwise EXCESSIVE
    when a maximum exists and the value is strictly above it, otherwise
    ADEQUATE.  There are no other rows.  A value equal to the minimum or to
    the maximum is ADEQUATE, and rows with the same actual value, minimum
    and maximum have the same status. *)
Theorem compliance_status_classification :
  forall (d : NutrientDensity) (stage : LifeStage),
    (forall (i : nat) (n : Main.t),
        nth_error (mainNutrients d) i = Some n ->
        exists standard item,
          lookup (Main.id n) (AAFCO_STANDARDS stage) = Some standard /\
          nth_error (complianceData d stage) i = Some item /\
          Compliance.nutrient item = Main.name n /\
          Compliance.actual item = Main.actual n /\
          Compliance.required_min item = min standard /\
          Compliance.required_max item = max standard /\
          Compliance.status item
          = status_of (Main.actual n) (min standard) (max standard)) /\
    List.length (complianceData d stage) = List.length (mainNutrients d) /\
    (forall (item : Compliance.t),
        In item (complianceData d stage) ->
        Compliance.status item
        = status_of (Compliance.actual item) (Compliance.required_min item)
                    (Compliance.required_max item)
        /\ (Compliance.required_min item = Some (Compliance.actual item) \/
            Compliance.required_max item = Some (Compliance.actual item) ->
            Compliance.status item = "ADEQUATE")
        /\ (forall d' stage' item',
              In item' (complianceData d' stage') ->
              Compliance.actual item' = Compliance.actual item ->
              Compliance.required_min item' = Compliance.required_min item ->
              Compliance.required_max item' = Compliance.required_max item ->
              Compliance.status item' = Compliance.status item)).
Proof.
  assert (Hstatus : forall d stage item,
             In item (complianceData d stage) ->
             exists s, standard_okb s = true /\
                       Compliance.required_min item = min s /\
                       Compliance.required_max item = max s /\
                       Compliance.status item
                       = status_of (Compliance.actual item) (min s) (max s)).
  { intros d stage item Hin.
    destruct (complianceData_row d stage item Hin) as (n & s & _ & Hs & ->).
    exists s. apply AAFCO_row_ok in Hs. simpl.
    repeat split; try assumption. now apply classify_status_of. }
  intros d stage. split; [|split].
  - intros i n Hn.
    assert (Hrow : forall standard,
               lookup (Main.id n) (AAFCO_STANDARDS stage) = Some standard ->
               Compliance.status (compliance_row n standard)
               = status_of (Main.actual n) (min standard) (max standard)).
    { intros standard Hl. cbn [Compliance.status compliance_row].
      apply classify_status_of.
      exact (AAFCO_row_ok stage _ _ (lookup_In _ _ _ Hl)). }
    destruct (lookup (Main.id n) (AAFCO_STANDARDS stage)) as [standard|] eqn:Hl.
    + exists standard, (compliance_row n standard).
      split; [reflexivity|]. split.
      * clear Hrow.
        destruct stage;
          (destruct i as [|[|[|[|[|i]]]]]; simpl in Hn;
           [ injection Hn as <-; simpl in Hl; injection Hl as <-; reflexivity ..
           | destruct i; discriminate Hn ]).
      * repeat (split; [reflexivity|]). now apply Hrow.
    + exfalso.
      destruct stage;
        (destruct i as [|[|[|[|[|i]]]]]; simpl in Hn;
         [ injection Hn as <-; discriminate Hl ..
         | destruct i; discriminate Hn ]).
  - destruct stage; reflexivity.
  - intros item Hin.
    destruct (Hstatus d stage item Hin) as (s & Hok & Hmin & Hmax & Hst).
    split; [|split].
    + now rewrite Hmin, Hmax.
    + rewrite Hst, Hmin, Hmax. now apply status_of_boundary.
    + intros d' stage' item' Hin' Ha Hmn Hmx.
      destruct (Hstatus d' stage' item' Hin') as (s' & _ & Hmin' & Hmax' & Hst').
      rewrite Hst, Hst', Ha. congruence.
Qed.

Lemma compliance_status_classification_witness :
  option_map Compliance.status
    (nth_error (complianceData low_protein_density DOG_ADULT) 0)
  = Some "DEFICIENT" /\
  option_map Compliance.status
    (nth_error (complianceData low_protein_density DOG_ADULT) 1)
  = Some "ADEQUATE".
Proof.
  destruct (compliance_status_classification low_protein_density DOG_ADULT)
    as (Hrows & _ & _).
  destruct (Hrows 0%nat _ eq_refl) as (sp & ip & Hlp & Hip & _ & _ & _ & _ & Hsp).
  destruct (Hrows 1%nat _ eq_refl) as (sf & jf & Hlf & Hif & _ & _ & _ & _ & Hsf).
  rewrite Hip, Hif. cbn [option_map]. rewrite Hsp, Hsf.
  simpl in Hlp, Hlf. injection Hlp as <-. injection Hlf as <-.
  split; reflexivity.
Defined.

(** C2.  What the code reports as [actual]: protein and fat come from the
    recipe's nutrient density, while the calcium, phosphorus and iron rows
    carry the literals 1250, 1200 and 12 whatever the recipe is. *)
Theorem compliance_actual_sources :
  forall (r : RecipeResult) (petDetails : option PetDetails),
    map (fun c => (Compliance.nutrient c, Compliance.actual c))
        (view_complianceData (useRecipeData r petDetails))
    = [ ("Protein", protein (nutrientDensity (recipe r) (analysis r)));
        ("Fat", fat (nutrientDensity (recipe r) (analysis r)));
        ("Calcium", (num 1250));
        ("Phosphorus", (num 1200));
        ("Iron", (num 12)) ].
Proof.
  intros r petDetails. unfold useRecipeData. simpl.
  destruct (life_stage (petInfo (recipe r) petDetails)); reflexivity.
Qed.

(* ================================================================== *)
(** * Nutrient density *)
(* ================================================================== *)

(** C3, as stated, fails.  For 5 g of protein in a recipe of 3 kcal the hook
    computes 5 * (1000 / 3), which is 1666.6666666666665, while 5 * 1000 / 3
    is 1666.6666666666667 (and neither is the fraction 5000/3).  For 1.38 g
    of fat in 100 kcal it computes 13.799999999999999, which is below the
    adult-dog minimum of 13.8, while 1.38 * 1000 / 100 is 13.8 and is not. *)
Lemma nutrient_density_counterexample :
  Binary64.protein
    (Binary64.nutrientDensity (recipe_of_kcal (F64.lit 3)) lean_nutrition)
  <> times_1000_over (F64.lit 5) (F64.lit 3) /\
  JS.fixed_string
    (F64.toFixed 13
       (Binary64.protein
          (Binary64.nutrientDensity (recipe_of_kcal (F64.lit 3)) lean_nutrition)))
  = Some "1666.6666666666665" /\
  JS.fixed_string (F64.toFixed 13 (times_1000_over (F64.lit 5) (F64.lit 3)))
  = Some "1666.6666666666667" /\
  F64.to_number
    (Binary64.protein
       (Binary64.nutrientDensity (recipe_of_kcal (F64.lit 3)) lean_nutrition))
  <> (num 5 * num 1000 / num 3)%js /\
  (Binary64.fat
     (Binary64.nutrientDensity (recipe_of_kcal (F64.lit 100)) lean_nutrition)
   <? F64.lit 13.8)%f64 = true /\
  (times_1000_over (F64.lit 1.38) (F64.lit 100) <? F64.lit 13.8)%f64 = false.
Proof.
  split; [vm_compute; discriminate|].
  split; [vm_compute; reflexivity|]. split; [vm_compute; reflexivity|].
  split; [intros H; vm_compute in H; discriminate H|].
  split; vm_compute; reflexivity.
Qed.

(** C3, amended.  Each density is the grams multiplied by the quotient
    1000 / actual calories, quotient and product each rounded to binary64.
    Fiber that is missing, zero or [NaN] counts as 0 g.  The target calories
    play no part: recipes with the same actual calories have the same
    densities. *)
Theorem nutrient_density_per_1000_actual_kcal :
  forall (rd : Binary64.RecipeData) (n : Binary64.NutritionAnalysis),
    let d := Binary64.nutrientDensity rd n in
    let factor := (F64.lit 1000 / Binary64.actual_calories rd)%f64 in
    Binary64.protein d = (Binary64.protein_g n * factor)%f64 /\
    Binary64.fat d = (Binary64.fat_g n * factor)%f64 /\
    Binary64.carbohydrate d = (Binary64.carbohydrate_g n * factor)%f64 /\
    (forall g, Binary64.fiber_g n = Some g -> F64.truthy g = true ->
               Binary64.fiber d = (g * factor)%f64) /\
    (forall g, Binary64.fiber_g n = Some g -> F64.truthy g = false ->
               Binary64.fiber d = (F64.lit 0 * factor)%f64) /\
    (Binary64.fiber_g n = None ->
     Binary64.fiber d = (F64.lit 0 * factor)%f64) /\
    (forall t, Binary64.nutrientDensity (with_target_calories t rd) n = d) /\
    (forall rd', Binary64.actual_calories rd' = Binary64.actual_calories rd ->
                 Binary64.nutrientDensity rd' n = d).
Proof.
  intros rd n d factor. subst d factor. unfold Binary64.nutrientDensity.
  cbn [Binary64.protein Binary64.fat Binary64.carbohydrate Binary64.fiber].
  split; [reflexivity|]. split; [reflexivity|]. split; [reflexivity|].
  split; [|split; [|split; [|split]]].
  - intros g Hg Ht. rewrite Hg. cbn [F64.or_num]. now rewrite Ht.
  - intros g Hg Ht. rewrite Hg. cbn [F64.or_num]. now rewrite Ht.
  - intros Hg. now rewrite Hg.
  - intros t. reflexivity.
  - intros rd' Hrd. now rewrite Hrd.
Qed.

Lemma nutrient_density_per_1000_actual_kcal_witness :
  Binary64.fiber
    (Binary64.nutrientDensity (recipe_of_kcal (F64.lit 100)) lean_nutrition)
  = (F64.lit 0 * (F64.lit 1000 / F64.lit 100))%f64 /\
  Binary64.nutrientDensity
    (with_target_calories (F64.lit 90) (recipe_of_kcal (F64.lit 100)))
    lean_nutrition
  = Binary64.nutrientDensity (recipe_of_kcal (F64.lit 100)) lean_nutrition.
Proof.
  destruct (nutrient_density_per_1000_actual_kcal
              (recipe_of_kcal (F64.lit 100)) lean_nutrition)
    as (_ & _ & _ & _ & _ & Hfiber & Htarget & _).
  split; [apply Hfiber; reflexivity | apply Htarget].
Defined.

(** The arithmetic of the engine on the figures above. *)
Example binary64_density_figures :
  (F64.lit 5 * (F64.lit 1000 / F64.lit 3))%f64
  = S754_finite false 7330077518506666 (-42) /\
  (F64.lit 5 * F64.lit 1000 / F64.lit 3)%f64
  = S754_finite false 7330077518506667 (-42) /\
  (F64.lit 1.38 * (F64.lit 1000 / F64.lit 100))%f64
  = S754_finite false 7768709357214105 (-49) /\
  F64.lit 13.8 = S754_finite false 7768709357214106 (-49).
Proof. repeat split; vm_compute; reflexivity. Qed.

(** The sample recipe: 30 g of protein in 500 kcal is 60 g per 1000 kcal
    (and not 30 * 1000 / 520). *)
Example sample_protein_density :
  protein (nutrientDensity sample_recipe (sample_analysis None)) = num 60.
Proof. js_refl. Qed.

(* ================================================================== *)
(** * Radar chart *)
(* ================================================================== *)

(** Rows built from the table always carry a minimum, and a non-zero one. *)
Lemma complianceData_min_truthy (d : NutrientDensity) (stage : LifeStage)
      (item : Compliance.t) :
  In item (complianceData d stage) ->
  exists m, Compliance.required_min item = Some m /\ JS.truthy m = true.
Proof.
  intros Hin.
  destruct (complianceData_row d stage item Hin) as (n & s & _ & Hs & ->).
  apply AAFCO_row_ok in Hs. destruct (okb_min s Hs) as (q & Hq & Hsgn).
  exists (JS.Fin q). simpl. now rewrite Hsgn.
Qed.

(** C4.  The radar datum built for a compliance row with a minimum is the
    actual value over the minimum, as a percentage, capped at 150, and so
    never above 150; for a row with no minimum it is 100.  Every row of the
    compliance data has a minimum. *)
Theorem radar_value_adequacy :
  (forall (c : list Compliance.t) (i : nat) (item : Compliance.t),
      nth_error c i = Some item ->
      exists r,
        nth_error (radarData c) i = Some r /\
        Radar.nutrient r = Compliance.nutrient item /\
        (forall m, Compliance.required_min item = Some m ->
                   JS.truthy m = true ->
                   Radar.value r
                   = JS.Math_min (Compliance.actual item / m * num 100)%js (num 150)
                   /\ ((num 150) <? Radar.value r)%js = false) /\
        (Compliance.required_min item = None -> Radar.value r = num 100)) /\
  (forall d stage item,
      In item (complianceData d stage) ->
      exists m, Compliance.required_min item = Some m /\ JS.truthy m = true).
Proof.
  split; [|exact complianceData_min_truthy].
  intros c i item Hnth. exists (radar_item item).
  split; [unfold radarData; now apply map_nth_error|].
  split; [reflexivity|]. split.
  - intros m Hm Ht. unfold radar_item. cbn [Radar.value]. rewrite Hm, Ht.
    split; [reflexivity | apply JSFacts.Math_min_cap].
  - intros Hm. unfold radar_item. cbn [Radar.value]. now rewrite Hm.
Qed.

Lemma radar_value_adequacy_witness :
  nth_error (complianceData sample_density DOG_ADULT) 0 = Some sample_protein_row /\
  Radar.value (radar_item sample_protein_row)
  = JS.Math_min (num 50 / num 45.0 * num 100)%js (num 150) /\
  ((num 150) <? Radar.value (radar_item sample_protein_row))%js = false.
Proof.
  assert (Hnth : nth_error (complianceData sample_density DOG_ADULT) 0
                 = Some sample_protein_row) by reflexivity.
  split; [exact Hnth|].
  destruct radar_value_adequacy as [Hvalue _].
  destruct (Hvalue _ _ _ Hnth) as (r & Hr & _ & Hmin & _).
  change (Some (radar_item sample_protein_row) = Some r) in Hr.
  injection Hr as <-.
  apply (Hmin (num 45.0)); reflexivity.
Defined.

(** The sample row shows 111.1 on the radar tooltip. *)
Example sample_radar_value :
  JS.fixed_string
    (JS.toFixed 1 (Radar.value (radar_item sample_protein_row)))
  = Some "111.1".
Proof. reflexivity. Qed.

(* ================================================================== *)
(** * Rounding done by [toFixed] *)
(* ================================================================== *)

Section ToFixed.
Import JS.

Lemma round_half_up_bounds (a : Q) :
  a - (1 # 2) < inject_Z (round_half_up a) /\
  inject_Z (round_half_up a) <= a + (1 # 2).
Proof.
  unfold round_half_up. split.
  - pose proof (Qlt_floor (a + (1 # 2))) as H.
    rewrite inject_Z_plus in H. change (inject_Z 1) with 1%Q in H.
    revert H. generalize (inject_Z (Qfloor (a + (1 # 2)))). intros z H. lra.
  - apply Qfloor_le.
Qed.

Lemma round_half_up_nonneg (a : Q) : 0 <= a -> (0 <= round_half_up a)%Z.
Proof.
  intros Ha. unfold round_half_up.
  change 0%Z with (Qfloor 0). apply Qfloor_resp_le. lra.
Qed.

(** Below [10^21], [toFixed] prints the nearest multiple of [10^-d]. *)
Lemma toFixed_dec (d : nat) (q : Qc) :
  Qabs (this q) < inject_Z (10 ^ 21) ->
  toFixed d (Fin q)
  = FixedDec (match sgn q with Lt => true | _ => false end)
             (Z.to_N (round_half_up (Qabs (this q) * inject_Z (pow10 d)))) d.
Proof.
  intros H. unfold toFixed.
  destruct (Qle_bool (inject_Z (10 ^ 21)) (Qabs (this q))) eqn:E; [|reflexivity].
  apply Qle_bool_iff in E. lra.
Qed.

Lemma pow10_pos (d : nat) : 0 < inject_Z (pow10 d).
Proof.
  unfold pow10. change 0 with (inject_Z 0). rewrite <- Zlt_Qlt.
  apply Z.pow_pos_nonneg; lia.
Qed.

(** The numeral denotes a number within half a unit of the last printed
    digit of the one formatted. *)
Lemma toFixed_accuracy (d : nat) (q : Qc) :
  Qabs (this q) < inject_Z (10 ^ 21) ->
  exists v,
    fixed_value (toFixed d (Fin q)) = Fin v /\
    Qabs (this v - this q) <= (1 # 2) / inject_Z (pow10 d).
Proof.
  intros Hbig. rewrite (toFixed_dec d q Hbig).
  set (P := inject_Z (pow10 d)).
  set (a := Qabs (this q)).
  assert (HP : 0 < P) by apply pow10_pos.
  assert (Ha : 0 <= a) by apply Qabs_nonneg.
  assert (HaP : 0 <= a * P) by (apply Qmult_le_0_compat; lra).
  pose proof (round_half_up_bounds (a * P)) as [Hlo Hhi].
  pose proof (round_half_up_nonneg (a * P) HaP) as Hr.
  set (r := round_half_up (a * P)) in *.
  cbn [fixed_value]. fold P. rewrite Z2N.id by exact Hr.
  assert (HiP : 0 < / P) by now apply Qinv_lt_0_compat.
  assert (Hclose : - ((1 # 2) / P) <= inject_Z r / P - a /\
                   inject_Z r / P - a <= (1 # 2) / P).
  { assert (E : inject_Z r / P - a == (inject_Z r - a * P) * / P) by (field; lra).
    rewrite E. unfold Qdiv. revert Hlo Hhi HiP.
    generalize (inject_Z r) (a * P) (/ P). intros x y z ? ? ?. split; nra. }
  destruct (sgn q) eqn:Hs; eexists; (split; [reflexivity|]).
  all: rewrite JSFacts.sgn_Q in Hs.
  - apply (proj2 (Qeq_alt _ _)) in Hs.
    rewrite JSFacts.this_lit. apply Qabs_Qle_condition.
    assert (Ea : a == this q) by (subst a; apply Qabs_pos; lra).
    revert Hclose Ea. generalize (inject_Z r / P) ((1#2)/P) a (this q). intros; lra.
  - apply (proj2 (Qlt_alt _ _)) in Hs.
    rewrite JSFacts.this_opp, JSFacts.this_lit. apply Qabs_Qle_condition.
    assert (Ea : a == - this q) by (subst a; apply Qabs_neg; lra).
    revert Hclose Ea. generalize (inject_Z r / P) ((1#2)/P) a (this q). intros; lra.
  - apply (proj2 (Qgt_alt _ _)) in Hs.
    rewrite JSFacts.this_lit. apply Qabs_Qle_condition.
    assert (Ea : a == this q) by (subst a; apply Qabs_pos; lra).
    revert Hclose Ea. generalize (inject_Z r / P) ((1#2)/P) a (this q). intros; lra.
Qed.

End ToFixed.

(* ================================================================== *)
(** * Economic analysis table *)
(* ================================================================== *)



(** On the sample the table reads 0.010 per kcal and 2.0 kcal/g. *)
Example sample_economic_strings :
  option_map
    (fun t => (JS.fixed_string (shown_cost_per_kcal t),
               JS.fixed_string (shown_energy_density t)))
    (economic_table sample_result)
  = Some (Some "0.010", Some "2.0").
Proof. reflexivity. Qed.

(** The printed cost per kcal is within 0.0005 of the quotient. *)
Lemma shown_cost_per_kcal_close (r : RecipeResult) (ca : CostAnalysis) (c k : Qc) :
  cost_analysis (analysis r) = Some ca ->
  total_cost ca = JS.Fin c ->
  actual_calories (recipe r) = JS.Fin k ->
  JS.sgn k <> Eq ->
  Qabs (this (c / k)%Qc) < inject_Z (10 ^ 21) ->
  exists table v,
    economic_table r = Some table /\
    JS.fixed_value (shown_cost_per_kcal table) = JS.Fin v /\
    Qabs (this v - this (c / k)%Qc) <= 1 # 2000.
Proof.
  intros Hca Hc Hk Hsgn Hbig. unfold economic_table. rewrite Hca.
  destruct (toFixed_accuracy 3 (c / k)%Qc Hbig) as (v & Hv & Hclose).
  eexists. exists v. split; [reflexivity|].
  cbn [shown_cost_per_kcal]. rewrite Hc, Hk.
  assert (Hdiv : (JS.Fin c / JS.Fin k)%js = JS.Fin (c / k))
    by (simpl; destruct (JS.sgn k); [contradiction | reflexivity | reflexivity]).
  rewrite Hdiv. split; [exact Hv | exact Hclose].
Qed.

(** Anything but "Success" is not rendered at all. *)
Lemma not_success_unavailable (r : RecipeResult) :
  status r <> "Success" -> RecipeResult_component (Some r) = Unavailable.
Proof.
  intros H. unfold RecipeResult_component.
  destruct (String.eqb_spec (status r) "Success"); [contradiction | reflexivity].
Qed.

(* ================================================================== *)
(** * Life stage *)
(* ================================================================== *)

(** C10.  A dog under 12 months is a puppy and from 12 months on an adult;
    likewise kitten and adult for a cat; any other species is treated as an
    adult dog. *)
Theorem calculateLifeStage_cases :
  forall (species : string) (age_months : JS.number),
    (species = "dog" -> (age_months <? num 12)%js = true ->
     calculateLifeStage species age_months = DOG_PUPPY) /\
    (species = "dog" -> (num 12 <=? age_months)%js = true ->
     calculateLifeStage species age_months = DOG_ADULT) /\
    (species = "cat" -> (age_months <? num 12)%js = true ->
     calculateLifeStage species age_months = CAT_KITTEN) /\
    (species = "cat" -> (num 12 <=? age_months)%js = true ->
     calculateLifeStage species age_months = CAT_ADULT) /\
    (species <> "dog" -> species <> "cat" ->
     calculateLifeStage species age_months = DOG_ADULT).
Proof.
  intros species age_months. unfold calculateLifeStage.
  repeat split.
  - intros -> ->. reflexivity.
  - intros -> H. apply JSFacts.leb_not_gtb in H. now rewrite H.
  - intros -> ->. reflexivity.
  - intros -> H. apply JSFacts.leb_not_gtb in H. now rewrite H.
  - intros Hd Hc.
    destruct (String.eqb_spec species "dog"); [contradiction|].
    destruct (String.eqb_spec species "cat"); [contradiction|].
    reflexivity.
Qed.

Lemma calculateLifeStage_cases_witness :
  calculateLifeStage "dog" (num 11) = DOG_PUPPY /\
  calculateLifeStage "dog" (num 12) = DOG_ADULT /\
  calculateLifeStage "cat" (num 3) = CAT_KITTEN /\
  calculateLifeStage "cat" (num 12) = CAT_ADULT /\
  calculateLifeStage "rabbit" (num 3) = DOG_ADULT.
Proof.
  pose proof (calculateLifeStage_cases "dog" (num 11)) as (Hpuppy & _).
  pose proof (calculateLifeStage_cases "dog" (num 12)) as (_ & Hdog & _).
  pose proof (calculateLifeStage_cases "cat" (num 3)) as (_ & _ & Hkitten & _).
  pose proof (calculateLifeStage_cases "cat" (num 12)) as (_ & _ & _ & Hcat & _).
  pose proof (calculateLifeStage_cases "rabbit" (num 3)) as (_ & _ & _ & _ & Hother).
  split; [apply Hpuppy; reflexivity|].
  split; [apply Hdog; reflexivity|].
  split; [apply Hkitten; reflexivity|].
  split; [apply Hcat; reflexivity|].
  apply Hother; discriminate.
Defined.

(* ================================================================== *)
(** * Recipe generation: failures and status values *)
(* ================================================================== *)

Section GenerateRecipe.

Variable post : ApiRequest -> Promise ResponseData.
Variable request : RecipeGenerationRequest.

(** The call rejected: an Axios error becomes the synthesised result, any
    other error is thrown again. *)
Lemma generateRecipe_rejected (e : JsError) :
  post (apiRequest_of request) = Rejected e ->
  generateRecipe post request
  = if isAxiosError e then Resolved (error_result request e) else Rejected e.
Proof. intros H. unfold generateRecipe. simpl. now rewrite H. Qed.

(** The call resolved: "Error" and incomplete data are thrown as plain
    errors, which the handler lets through; the rest is returned as is. *)
Lemma generateRecipe_resolved (data : ResponseData) :
  post (apiRequest_of request) = Resolved data ->
  generateRecipe post request
  = if String.eqb (data_status data) "Error" then
      Rejected (new_Error (JS.or_str (data_error data) "Recipe generation failed"))
    else
      match data_recipe data, data_analysis data with
      | Some r, Some a =>
          Resolved {| status := data_status data;
                      error := value_of_string (data_error data);
                      recipe := r;
                      analysis := a |}
      | _, _ => Rejected (new_Error "Recipe data structure is incomplete")
      end.
Proof.
  intros H. unfold generateRecipe. simpl. rewrite H. simpl.
  destruct (String.eqb (data_status data) "Error"); [reflexivity|].
  destruct (data_recipe data), (data_analysis data); reflexivity.
Qed.

(** An error the response interceptor has rewrapped is a plain [Error]: it
    is thrown again, not turned into a result. *)
Lemma generateRecipe_intercepted (describe : JsError -> string) (e : JsError) :
  post (apiRequest_of request) = Rejected (response_interceptor_rejected describe e) ->
  generateRecipe post request = Rejected (response_interceptor_rejected describe e).
Proof. intros H. now rewrite (generateRecipe_rejected _ H). Qed.

Lemma or_val_truthy (a : JS.value) (s : string) :
  s <> "" -> JS.truthy_val (JS.or_val a (JS.VStr s)) = true.
Proof.
  intros Hs. unfold JS.or_val. destruct (JS.truthy_val a) eqn:E; [exact E|].
  destruct s; [contradiction | reflexivity].
Qed.

Lemma or_str_nonempty (s : option string) (d : string) :
  d <> "" -> JS.or_str s d <> "".
Proof.
  intros Hd. unfold JS.or_str. destruct s as [[|c s]|]; simpl; try assumption.
  discriminate.
Qed.

End GenerateRecipe.

(** C6.  The transport [raw] fails with an Axios error.  The [catch] block
    of [generateRecipe], were that error to reach it, would build the result
    the claim describes: status "Error", a truthy error (a non-empty string
    when the response's detail is a string or is missing, the detail itself
    when that is an object), no ingredients, zero weight, calories and
    accuracy, a non-compliant summary with score 0.  But the program posts
    through the response interceptor, which has already replaced the error
    by a plain [Error]: [generateRecipe] throws it again and no result is
    returned.  A backend answer with status "Error" is thrown with the
    answer's error message (or a fixed message when it has none), as the
    claim says. *)
Theorem generateRecipe_failures :
  forall (describe : JsError -> string)
         (raw : ApiRequest -> Promise ResponseData)
         (request : RecipeGenerationRequest),
    (forall e,
        raw (apiRequest_of request) = Rejected e ->
        isAxiosError e = true ->
        generateRecipe (apiClient_post describe raw) request
        = Rejected (new_Error (describe e)) /\
        (forall result,
            generateRecipe (apiClient_post describe raw) request
            <> Resolved result) /\
        exists result,
          generateRecipe raw request = Resolved result /\
          status result = "Error" /\
          JS.truthy_val (error result) = true /\
          (detail_is_text (detail e) ->
           exists s, error result = JS.VStr s /\ s <> "") /\
          (detail e = JS.VObj -> error result = JS.VObj) /\
          ingredients (recipe result) = [] /\
          total_weight_g (recipe result) = num 0 /\
          actual_calories (recipe result) = num 0 /\
          energy_accuracy (recipe result) = num 0 /\
          compliant (aafco_compliance (analysis result)) = false /\
          score (aafco_compliance (analysis result)) = num 0) /\
    (forall data,
        raw (apiRequest_of request) = Resolved data ->
        data_status data = "Error" ->
        exists err,
          generateRecipe (apiClient_post describe raw) request = Rejected err /\
          isAxiosError err = false /\
          message err = JS.or_str (data_error data) "Recipe generation failed" /\
          message err <> "" /\
          (forall msg, data_error data = Some msg -> msg <> "" ->
                       message err = msg)).
Proof.
  intros describe raw request. split.
  - intros e Hraw Haxios.
    assert (Hpost : apiClient_post describe raw (apiRequest_of request)
                    = Rejected (new_Error (describe e))).
    { unfold apiClient_post. now rewrite Hraw. }
    assert (Hprog : generateRecipe (apiClient_post describe raw) request
                    = Rejected (new_Error (describe e))).
    { now rewrite (generateRecipe_rejected _ request _ Hpost). }
    split; [exact Hprog|]. split; [rewrite Hprog; discriminate|].
    exists (error_result request e). split.
    + rewrite (generateRecipe_rejected raw request e Hraw), Haxios. reflexivity.
    + split; [reflexivity|].
      split; [apply or_val_truthy; discriminate|].
      split; [|split; [|repeat split]].
      * intros Htext. cbn [error error_result]. unfold JS.or_val.
        destruct Htext as [-> | [-> | [s ->]]]; simpl.
        -- destruct (message e) as [|c m]; simpl; eexists; split;
             try reflexivity; discriminate.
        -- destruct (message e) as [|c m]; simpl; eexists; split;
             try reflexivity; discriminate.
        -- destruct s as [|c s]; simpl.
           ++ destruct (message e) as [|c m]; simpl; eexists; split;
                try reflexivity; discriminate.
           ++ eexists; split; [reflexivity | discriminate].
      * intros Hobj. cbn [error error_result]. rewrite Hobj. reflexivity.
  - intros data Hraw Hstatus.
    assert (Hpost : apiClient_post describe raw (apiRequest_of request)
                    = Resolved data).
    { unfold apiClient_post. now rewrite Hraw. }
    exists (new_Error (JS.or_str (data_error data) "Recipe generation failed")).
    split.
    + rewrite (generateRecipe_resolved _ request data Hpost), Hstatus.
      reflexivity.
    + split; [reflexivity|]. split; [reflexivity|].
      split; [apply or_str_nonempty; discriminate|].
      intros msg Hmsg Hne. cbn [message new_Error]. rewrite Hmsg.
      destruct msg; [contradiction | reflexivity].
Qed.

Lemma generateRecipe_failures_witness :
  generateRecipe (apiClient_post describe_message post_unreachable) sample_request
  = Rejected (new_Error "Network Error") /\
  generateRecipe post_unreachable sample_request
  = Resolved (error_result sample_request network_error) /\
  error (error_result sample_request validation_error) = JS.VObj /\
  generateRecipe (apiClient_post describe_message post_infeasible) sample_request
  = Rejected (new_Error "no feasible nutrient-adequate composition").
Proof.
  destruct (generateRecipe_failures describe_message post_unreachable
              sample_request) as [Haxios _].
  destruct (generateRecipe_failures describe_message post_invalid
              sample_request) as [Hinvalid _].
  destruct (generateRecipe_failures describe_message post_infeasible
              sample_request) as [_ Hbackend].
  destruct (Haxios network_error eq_refl eq_refl)
    as (Hprog & _ & result & Hres & _).
  destruct (Hinvalid validation_error eq_refl eq_refl)
    as (_ & _ & result' & Hres' & _ & _ & _ & Hobj & _).
  destruct (Hbackend infeasible_answer eq_refl eq_refl)
    as (err & Herr & _ & _ & _ & Hmsg).
  split; [exact Hprog|]. split; [|split].
  - rewrite Hres. change (Resolved (error_result sample_request network_error)
                          = Resolved result) in Hres.
    now injection Hres as <-.
  - change (Resolved (error_result sample_request validation_error)
            = Resolved result') in Hres'.
    injection Hres' as <-. apply Hobj. reflexivity.
  - rewrite Herr.
    change (Rejected (new_Error "no feasible nutrient-adequate composition")
            = Rejected err :> Promise RecipeResult) in Herr.
    now injection Herr as <-.
Defined.

(** ** Which status values come back *)

(** C7, as stated, fails: a backend answer with status "Failed" (a value the
    [RecipeResult] type declares) is handed to the caller unchanged. *)
Lemma status_two_values_counterexample :
  generateRecipe post_failed sample_request = Resolved failed_result /\
  status failed_result = "Failed" /\
  status failed_result <> "Success" /\
  status failed_result <> "Error".
Proof.
  split; [reflexivity|].
  split; [reflexivity|].
  split; discriminate.
Qed.

(** C7, amended.  A returned result is either the one synthesised for an
    Axios failure, with status "Error", or the backend's answer with its
    status untouched, which then is not "Error".  If the backend keeps to the
    declared ['Success' | 'Failed' | 'Error'], so does every returned status;
    and the report is rendered for "Success" only. *)
Theorem generateRecipe_status_values :
  forall (post : ApiRequest -> Promise ResponseData)
         (request : RecipeGenerationRequest) (result : RecipeResult),
    generateRecipe post request = Resolved result ->
    ((exists e, post (apiRequest_of request) = Rejected e /\
                isAxiosError e = true /\
                result = error_result request e /\
                status result = "Error") \/
     (exists data, post (apiRequest_of request) = Resolved data /\
                   status result = data_status data /\
                   status result <> "Error")) /\
    ((forall data, post (apiRequest_of request) = Resolved data ->
                   RecipeResult_status_declared (data_status data)) ->
     RecipeResult_status_declared (status result)) /\
    (forall report, RecipeResult_component (Some result) = Rendered report ->
                    status result = "Success").
Proof.
  intros post request result Hgen.
  assert (Hcases :
            (exists e, post (apiRequest_of request) = Rejected e /\
                       isAxiosError e = true /\
                       result = error_result request e /\
                       status result = "Error") \/
            (exists data, post (apiRequest_of request) = Resolved data /\
                          status result = data_status data /\
                          status result <> "Error")).
  { destruct (post (apiRequest_of request)) as [data|e] eqn:Hpost.
    - right. exists data. split; [reflexivity|].
      rewrite (generateRecipe_resolved post request data Hpost) in Hgen.
      destruct (String.eqb_spec (data_status data) "Error") as [|Hne];
        [discriminate|].
      destruct (data_recipe data), (data_analysis data); try discriminate.
      injection Hgen as <-. split; [reflexivity | exact Hne].
    - left. exists e. split; [reflexivity|].
      rewrite (generateRecipe_rejected post request e Hpost) in Hgen.
      destruct (isAxiosError e); [|discriminate].
      injection Hgen as <-. repeat split. }
  split; [exact Hcases|]. split.
  - intros Hdeclared.
    destruct Hcases as [(e & _ & _ & _ & ->) | (data & Hpost & -> & _)].
    + right. right. reflexivity.
    + now apply Hdeclared.
  - intros report Hview. unfold RecipeResult_component in Hview.
    destruct (String.eqb_spec (status result) "Success") as [H|H];
      [exact H | discriminate].
Qed.

Lemma generateRecipe_status_values_witness :
  RecipeResult_status_declared "Failed" /\
  RecipeResult_component
    (Some {| status := "Failed"; error := JS.VUndefined;
             recipe := sample_recipe; analysis := sample_analysis None |})
  = Unavailable.
Proof.
  pose proof (generateRecipe_status_values post_failed sample_request _ eq_refl)
    as (_ & Hdeclared & _).
  split; [|reflexivity].
  apply Hdeclared. intros data [= <-]. right. left. reflexivity.
Defined.

(* ================================================================== *)
(** * Macronutrient chart *)
(* ================================================================== *)

(** C9, as stated, fails: with one gram of each macronutrient every
    percentage is the string "33.3", which is not the number the division
    gives, and the three sum to 99.9 although the grams sum to 3. *)
Lemma macro_percentages_counterexample :
  (F64.lit 0 <? Binary64.protein_g macro_sample + Binary64.fat_g macro_sample
                + Binary64.carbohydrate_g macro_sample)%f64 = true /\
  map (fun m => JS.fixed_string (Binary64.Macro.percentage m))
      (Binary64.macroData macro_sample)
  = [Some "33.3"; Some "33.3"; Some "33.3"] /\
  sum_values (map Binary64.Macro.percentage (Binary64.macroData macro_sample))
  = num 99.9 /\
  (sum_values (map Binary64.Macro.percentage (Binary64.macroData macro_sample))
   <? num 100)%js = true /\
  JS.fixed_value (JS.FixedDec false 333 1)
  <> F64.to_number
       (F64.lit 1 / (F64.lit 1 + F64.lit 1 + F64.lit 1) * F64.lit 100)%f64.
Proof.
  split; [reflexivity|]. split; [reflexivity|].
  split; [js_refl|]. split; [reflexivity|].
  intros H. vm_compute in H. discriminate H.
Qed.

(** C9, amended.  The chart has the three slices protein, fat and
    carbohydrate, each with its grams as value.  The calories are the grams
    times 4, 9 and 4.  Each percentage is the [toFixed(1)] numeral of the
    number the engine computes for grams over the sum of the grams, times
    100; nothing makes the three numerals add up to 100. *)
Theorem macro_chart_values :
  forall (n : Binary64.NutritionAnalysis),
    let p := Binary64.protein_g n in
    let f := Binary64.fat_g n in
    let c := Binary64.carbohydrate_g n in
    let total := (p + f + c)%f64 in
    map Binary64.Macro.name (Binary64.macroData n)
    = ["Protein"; "Fat"; "Carbohydrate"] /\
    map Binary64.Macro.value (Binary64.macroData n) = [p; f; c] /\
    map Binary64.Macro.calories (Binary64.macroData n)
    = [(p * F64.lit 4)%f64; (f * F64.lit 9)%f64; (c * F64.lit 4)%f64] /\
    map Binary64.Macro.percentage (Binary64.macroData n)
    = [F64.toFixed 1 (p / total * F64.lit 100)%f64;
       F64.toFixed 1 (f / total * F64.lit 100)%f64;
       F64.toFixed 1 (c / total * F64.lit 100)%f64] /\
    (forall n', Binary64.protein_g n' = p -> Binary64.fat_g n' = f ->
                Binary64.carbohydrate_g n' = c ->
                Binary64.macroData n' = Binary64.macroData n).
Proof.
  intros n p f c total. subst p f c total.
  repeat (split; [reflexivity|]).
  intros n' Hp Hf Hc. unfold Binary64.macroData. now rewrite Hp, Hf, Hc.
Qed.

Lemma macro_chart_values_witness :
  map Binary64.Macro.percentage (Binary64.macroData lean_nutrition)
  = [JS.FixedDec false 784 1; JS.FixedDec false 216 1; JS.FixedDec false 0 1].
Proof.
  destruct (macro_chart_values lean_nutrition) as (_ & _ & _ & Hpct & _).
  rewrite Hpct. vm_compute. reflexivity.
Defined.

(** The engine's rounding shows in the numerals: 23 g out of 80 g is 28.75 %
    on paper, but the engine computes 28.749999999999996 and prints 28.7;
    and amounts whose sum overflows all print 0.0. *)
Example binary64_percentage_figures :
  JS.fixed_string
    (F64.toFixed 1 (F64.lit 23 / (F64.lit 1 + F64.lit 23 + F64.lit 56)
                    * F64.lit 100)%f64) = Some "28.7" /\
  JS.fixed_string
    (F64.toFixed 1 (F64.lit 1e308 / (F64.lit 1e308 + F64.lit 1e308 + F64.lit 1e308)
                    * F64.lit 100)%f64) = Some "0.0".
Proof. split; vm_compute; reflexivity. Qed.

(* ================================================================== *)
(** * Further properties of the compliance rows *)
(* ================================================================== *)

Section Order.
Import JS.

Lemma ltb_Fin (a b : Qc) : (Fin a <? Fin b)%js = true <-> this a < this b.
Proof.
  simpl. unfold Qccompare. split.
  - destruct (this a ?= this b)%Q eqn:E; try discriminate.
    intros _. now apply (proj2 (Qlt_alt _ _)).
  - intros H. now rewrite (proj1 (Qlt_alt _ _) H).
Qed.

Lemma ltb_Fin_false (a b : Qc) : (Fin a <? Fin b)%js = false <-> this b <= this a.
Proof.
  split.
  - intros H. apply Qnot_lt_le. intros Hlt.
    apply ltb_Fin in Hlt. congruence.
  - intros H. destruct (Fin a <? Fin b)%js eqn:E; [|reflexivity].
    apply ltb_Fin in E. apply Qle_not_lt in H. contradiction.
Qed.

Lemma ltb_trans (x y z : number) :
  (x <? y)%js = true -> (y <? z)%js = true -> (x <? z)%js = true.
Proof.
  destruct x as [a| | |], y as [b| | |], z as [c| | |];
    try discriminate; try reflexivity.
  intros H1 H2. apply ltb_Fin in H1, H2. apply ltb_Fin.
  now apply Qlt_trans with (this b).
Qed.

End Order.

(** X1.  No row of the compliance data is ever EXCESSIVE: protein, fat and
    iron have no maximum in any life stage, and the fixed calcium and
    phosphorus values lie below their maxima. *)
Theorem complianceData_never_excessive :
  forall (d : NutrientDensity) (stage : LifeStage) (item : Compliance.t),
    In item (complianceData d stage) ->
    Compliance.status item <> "EXCESSIVE".
Proof.
  intros d stage item Hin.
  assert (Hnomax : forall s a, max s = None -> classify s a <> "EXCESSIVE").
  { intros s a Hmax. unfold classify. rewrite Hmax. simpl.
    destruct (guarded (min s) (fun m => (a <? m)%js)); discriminate. }
  destruct stage; simpl in Hin;
    repeat (destruct Hin as [<- | Hin]; [|]); try contradiction;
    try (apply Hnomax; reflexivity);
    vm_compute; discriminate.
Qed.

Lemma complianceData_never_excessive_witness :
  Compliance.status sample_fat_row <> "EXCESSIVE".
Proof.
  apply (complianceData_never_excessive sample_density DOG_ADULT).
  simpl. right. left. reflexivity.
Defined.

(** X2.  The status of the calcium, phosphorus and iron rows depends on the
    life stage alone: adequate for an adult dog, deficient for a puppy, a
    kitten and an adult cat, whatever the recipe contains. *)
Theorem mineral_rows_status_by_stage :
  forall (d : NutrientDensity) (stage : LifeStage),
    map (fun c => (Compliance.nutrient c, Compliance.status c))
        (skipn 2 (complianceData d stage))
    = [ ("Calcium", mineral_status stage);
        ("Phosphorus", mineral_status stage);
        ("Iron", mineral_status stage) ].
Proof. intros d stage. destruct stage; reflexivity. Qed.

Lemma status_of_monotone (mn mx : option JS.number) (a1 a2 : JS.number) :
  (a1 <? a2)%js = true ->
  (status_rank (status_of a1 mn mx) <= status_rank (status_of a2 mn mx))%nat.
Proof.
  intros Hlt. unfold status_of, JS.gtb.
  destruct mn as [m|]; destruct mx as [M|].
  - destruct (a2 <? m)%js eqn:H2.
    + rewrite (ltb_trans _ _ _ Hlt H2). apply le_n.
    + destruct (a1 <? m)%js; [destruct (M <? a2)%js; vm_compute; lia|].
      destruct (M <? a1)%js eqn:H1.
      * rewrite (ltb_trans _ _ _ H1 Hlt). apply le_n.
      * destruct (M <? a2)%js; vm_compute; lia.
  - destruct (a2 <? m)%js eqn:H2.
    + rewrite (ltb_trans _ _ _ Hlt H2). apply le_n.
    + destruct (a1 <? m)%js; vm_compute; lia.
  - destruct (M <? a1)%js eqn:H1.
    + rewrite (ltb_trans _ _ _ H1 Hlt). apply le_n.
    + destruct (M <? a2)%js; vm_compute; lia.
  - apply le_n.
Qed.

(** X3.  Against any row of the table the classification is monotone: a
    larger actual value is never classified lower in the order DEFICIENT,
    ADEQUATE, EXCESSIVE than a smaller one. *)
Theorem classify_monotone :
  forall (stage : LifeStage) (id : Z) (s : Standard) (a1 a2 : JS.number),
    In (id, s) (AAFCO_STANDARDS stage) ->
    (a1 <? a2)%js = true ->
    (status_rank (classify s a1) <= status_rank (classify s a2))%nat.
Proof.
  intros stage id s a1 a2 Hin Hlt.
  pose proof (AAFCO_row_ok stage id s Hin) as Hok.
  rewrite !(classify_status_of s Hok).
  now apply status_of_monotone.
Qed.

Lemma classify_monotone_witness :
  (status_rank (classify dog_adult_calcium (num 1000))
   <= status_rank (classify dog_adult_calcium (num 7000)))%nat.
Proof.
  apply (classify_monotone DOG_ADULT CALCIUM).
  - simpl. do 3 right. left. reflexivity.
  - reflexivity.
Defined.

(** Against the adult-dog calcium row, 1000 is deficient and 7000
    excessive. *)
Example classify_calcium_ends :
  classify dog_adult_calcium (num 1000) = "DEFICIENT" /\
  classify dog_adult_calcium (num 7000) = "EXCESSIVE".
Proof. split; reflexivity. Qed.

(* ================================================================== *)
(** * Radar chart and compliance rows together *)
(* ================================================================== *)

Lemma ratio_below_100 (x q : Q) : 0 < q -> (x / q * 100 < 100 <-> x < q).
Proof.
  intros Hq. split.
  - intros H. apply Qnot_le_lt. intros Hle.
    assert (H1 : 1 <= x / q) by (apply Qle_shift_div_l; lra).
    revert H H1. generalize (x / q). intros r ? ?. lra.
  - intros H.
    assert (H1 : x / q < 1) by (apply Qlt_shift_div_r; lra).
    revert H1. generalize (x / q). intros r ?. lra.
Qed.

Lemma radar_scale_below_100 (a : JS.number) (q : Qc) :
  JS.sgn q = Gt ->
  (JS.Math_min (a / JS.Fin q * num 100) (num 150) <? num 100)%js
  = (a <? JS.Fin q)%js.
Proof.
  intros Hq. unfold JS.lit.
  assert (Hq' : 0 < this q)
    by (rewrite JSFacts.sgn_Q in Hq; now apply (proj2 (Qgt_alt _ _))).
  destruct a as [x| | |]; simpl; rewrite ?Hq; simpl; try reflexivity.
  set (y := (x / q * Q2Qc 100)%Qc).
  assert (Hy : this y == this x / this q * 100)
    by (subst y; now rewrite JSFacts.this_mul, JSFacts.this_div, JSFacts.this_lit).
  change (match (y ?= Q2Qc 150)%Qc with Lt => true | _ => false end)
    with (JS.Fin y <? JS.Fin (Q2Qc 150))%js.
  change (match (x ?= q)%Qc with Lt => true | _ => false end)
    with (JS.Fin x <? JS.Fin q)%js.
  destruct (JS.Fin y <? JS.Fin (Q2Qc 150))%js eqn:Hcap.
  - apply Bool.eq_iff_eq_true. rewrite !ltb_Fin, JSFacts.this_lit, Hy.
    now apply ratio_below_100.
  - apply ltb_Fin_false in Hcap. rewrite JSFacts.this_lit, Hy in Hcap.
    symmetry. transitivity false; [|reflexivity].
    apply ltb_Fin_false. apply Qnot_lt_le. intros Hlt.
    apply (ratio_below_100 _ _ Hq') in Hlt.
    revert Hcap Hlt. generalize (this x / this q * 100). intros r ? ?. lra.
Qed.

(** X4.  For every row of the compliance data, the radar chart shows a value
    below 100 exactly when the row is classified DEFICIENT. *)
Theorem radar_below_100_iff_deficient :
  forall (d : NutrientDensity) (stage : LifeStage) (item : Compliance.t),
    In item (complianceData d stage) ->
    ((Radar.value (radar_item item) <? num 100)%js = true <->
     Compliance.status item = "DEFICIENT").
Proof.
  intros d stage item Hin.
  destruct (complianceData_row d stage item Hin) as (n & s & _ & Hs & ->).
  apply AAFCO_row_ok in Hs.
  destruct (okb_min s Hs) as (q & Hmin & Hq).
  unfold radar_item, compliance_row.
  cbn [Radar.value Compliance.required_min Compliance.actual Compliance.status].
  rewrite (classify_status_of s Hs), Hmin. cbn [JS.truthy]. rewrite Hq.
  rewrite (radar_scale_below_100 _ q Hq). unfold status_of.
  destruct (Main.actual n <? JS.Fin q)%js.
  - split; reflexivity.
  - split; [discriminate|].
    destruct (match max s with Some m => _ | None => false end); discriminate.
Qed.

Lemma radar_below_100_iff_deficient_witness :
  (Radar.value
     (radar_item
        (compliance_row
           {| Main.id := PROTEIN; Main.name := "Protein"; Main.actual := num 25 |}
           {| min := Some (num 30); max := null; unit := "G";
              nutrient_id := PROTEIN |})) <? num 100)%js = true.
Proof.
  apply (radar_below_100_iff_deficient sample_puppy_density DOG_PUPPY).
  - simpl. left. reflexivity.
  - reflexivity.
Defined.

(* ================================================================== *)
(** * The table as a map *)
(* ================================================================== *)

Lemma lookup_complete (rows : list (Z * Standard)) :
  NoDup (map fst rows) ->
  forall id s, In (id, s) rows -> lookup id rows = Some s.
Proof.
  induction rows as [|[k r] rows IH]; intros Hnd id s Hin; [contradiction|].
  simpl in Hnd. inversion Hnd as [|? ? Hnotin Hnd']; subst.
  simpl. destruct Hin as [[= -> ->] | Hin].
  - now rewrite Z.eqb_refl.
  - destruct (Z.eqb_spec k id) as [->|_]; [|now apply IH].
    exfalso. apply Hnotin. change id with (fst (id, s)). now apply in_map.
Qed.

Lemma AAFCO_nutrient_id_okb (stage : LifeStage) :
  forallb (fun row => Z.eqb (nutrient_id (snd row)) (fst row))
          (AAFCO_STANDARDS stage) = true.
Proof. destruct stage; reflexivity. Qed.

(** X5.  Reading the table back: a row is in a life stage's table exactly
    when looking up its key returns that very row (no key is shadowed by a
    duplicate), and the row's own [nutrient_id] is the key it is stored
    under. *)
Theorem AAFCO_lookup_round_trip :
  forall (stage : LifeStage) (id : Z) (s : Standard),
    (In (id, s) (AAFCO_STANDARDS stage) <->
     lookup id (AAFCO_STANDARDS stage) = Some s) /\
    (In (id, s) (AAFCO_STANDARDS stage) -> nutrient_id s = id).
Proof.
  intros stage id s. split; [split|].
  - apply lookup_complete. apply AAFCO_keys_NoDup.
  - apply lookup_In.
  - intros Hin. pose proof (AAFCO_nutrient_id_okb stage) as H.
    rewrite forallb_forall in H. apply Z.eqb_eq. exact (H (id, s) Hin).
Qed.

Lemma AAFCO_lookup_round_trip_witness :
  lookup CALCIUM (AAFCO_STANDARDS DOG_ADULT) = Some dog_adult_calcium /\
  nutrient_id dog_adult_calcium = CALCIUM.
Proof.
  destruct (AAFCO_lookup_round_trip DOG_ADULT CALCIUM dog_adult_calcium)
    as [[Hto _] Hid].
  assert (Hin : In (CALCIUM, dog_adult_calcium) (AAFCO_STANDARDS DOG_ADULT))
    by (simpl; do 3 right; left; reflexivity).
  split; [exact (Hto Hin) | exact (Hid Hin)].
Defined.

(* ================================================================== *)
(** * A recipe without calories *)
(* ================================================================== *)

(** X6.  When the actual calories are a zero, no density is a finite
    number.  A macronutrient whose grams are zero (or [NaN]) has density
    [NaN]; any other amount has an infinite density whose sign is that of
    the grams if the calories are 0 and the opposite if they are -0.  Fiber
    that is missing or zero has density [NaN]. *)
Theorem zero_calories_density :
  forall (rd : Binary64.RecipeData) (n : Binary64.NutritionAnalysis) (s : bool),
    Binary64.actual_calories rd = S754_zero s ->
    let d := Binary64.nutrientDensity rd n in
    Binary64.protein d = density_at_zero s (Binary64.protein_g n) /\
    Binary64.fat d = density_at_zero s (Binary64.fat_g n) /\
    Binary64.carbohydrate d = density_at_zero s (Binary64.carbohydrate_g n) /\
    Binary64.fiber d
    = density_at_zero s (F64.or_num (Binary64.fiber_g n) (F64.lit 0)) /\
    (F64.truthy (F64.or_num (Binary64.fiber_g n) (F64.lit 0)) = false ->
     Binary64.fiber d = F64.NaN) /\
    (forall x,
        In x [Binary64.protein d; Binary64.fat d; Binary64.carbohydrate d;
              Binary64.fiber d] ->
        x = F64.NaN \/ x = F64.PosInf \/ x = F64.NegInf).
Proof.
  intros rd n s Hzero d. subst d. unfold Binary64.nutrientDensity.
  cbn [Binary64.protein Binary64.fat Binary64.carbohydrate Binary64.fiber].
  rewrite Hzero.
  assert (Hfactor : (F64.lit 1000 / S754_zero s)%f64 = S754_infinity s)
    by (destruct s; reflexivity).
  rewrite Hfactor.
  assert (Hmul : forall g, (g * S754_infinity s)%f64 = density_at_zero s g).
  { intros [sg|sg| |sg m e]; reflexivity. }
  rewrite !Hmul.
  assert (Hkind : forall g, density_at_zero s g = F64.NaN \/
                            density_at_zero s g = F64.PosInf \/
                            density_at_zero s g = F64.NegInf).
  { intros [sg|sg| |sg m e]; cbn [density_at_zero]; auto;
      destruct sg, s; auto. }
  repeat (split; [reflexivity|]). split.
  - destruct (F64.or_num (Binary64.fiber_g n) (F64.lit 0)) as [sg|sg| |sg m e];
      intros H; try reflexivity; discriminate H.
  - intros x [<- | [<- | [<- | [<- | []]]]]; apply Hkind.
Qed.

Lemma zero_calories_density_witness :
  Binary64.nutrientDensity (recipe_of_kcal F64.NegZero) odd_nutrition
  = {| Binary64.protein := F64.NegInf;
       Binary64.fat := F64.NaN;
       Binary64.carbohydrate := F64.NegInf;
       Binary64.fiber := F64.NegInf |}.
Proof.
  destruct (zero_calories_density (recipe_of_kcal F64.NegZero) odd_nutrition
              true eq_refl) as (Hp & Hf & Hc & Hfi & _).
  destruct (Binary64.nutrientDensity (recipe_of_kcal F64.NegZero) odd_nutrition)
    as [p f c fi].
  cbn [Binary64.protein Binary64.fat Binary64.carbohydrate Binary64.fiber]
    in Hp, Hf, Hc, Hfi.
  rewrite Hp, Hf, Hc, Hfi. reflexivity.
Defined.

(* ================================================================== *)
(** * Ingredient chart *)
(* ================================================================== *)

Section Strings.

Lemma length_append (s t : string) :
  String.length (s ++ t) = (String.length s + String.length t)%nat.
Proof. induction s as [|c s IH]; simpl; [reflexivity | now rewrite IH]. Qed.

Lemma length_substring_0 (n : nat) :
  forall s, (n <= String.length s)%nat ->
            String.length (substring 0 n s) = n.
Proof.
  induction n as [|n IH]; intros s Hn.
  - destruct s; reflexivity.
  - destruct s as [|c s]; simpl in *; [lia|].
    rewrite IH; [reflexivity | lia].
Qed.

Lemma substring_0_append (n : nat) :
  forall s t, (n <= String.length s)%nat ->
              substring 0 n (s ++ t) = substring 0 n s.
Proof.
  induction n as [|n IH]; intros s t Hn.
  - destruct s; simpl; [destruct t|]; reflexivity.
  - destruct s as [|c s]; simpl in *; [lia|].
    rewrite IH; [reflexivity | lia].
Qed.

Lemma substring_0_idem (n : nat) :
  forall s, substring 0 n (substring 0 n s) = substring 0 n s.
Proof.
  induction n as [|n IH]; intros s.
  - destruct s; reflexivity.
  - destruct s as [|c s]; simpl; [reflexivity | now rewrite IH].
Qed.

Lemma substring_skip_append (s : string) :
  forall t m, substring (String.length s) m (s ++ t) = substring 0 m t.
Proof. induction s as [|c s IH]; intros t m; simpl; [reflexivity | apply IH]. Qed.

End Strings.

(** X7.  The label of an ingredient slice: a description of at most 12
    characters is kept as it is; a longer one is cut to its first 12
    characters followed by three dots, so a label never has more than 15
    characters. *)
Theorem slice_name_truncation :
  forall (description : string),
    ((String.length description <= 12)%nat ->
     slice_name description = description) /\
    ((12 < String.length description)%nat ->
     String.length (slice_name description) = 15%nat /\
     substring 0 12 (slice_name description) = substring 0 12 description /\
     substring 12 3 (slice_name description) = "...") /\
    (String.length (slice_name description) <= 15)%nat.
Proof.
  intros description. unfold slice_name.
  destruct (Nat.ltb_spec 12 (String.length description)) as [Hlong|Hshort].
  - assert (Hlen : String.length (substring 0 12 description) = 12%nat)
      by (apply length_substring_0; lia).
    split; [lia|]. split.
    + intros _. split; [|split].
      * rewrite length_append, Hlen. reflexivity.
      * rewrite substring_0_append by lia. apply substring_0_idem.
      * rewrite <- Hlen at 1. apply substring_skip_append.
    + rewrite length_append, Hlen. simpl. lia.
  - split; [reflexivity|]. split; [lia | lia].
Qed.

Lemma slice_name_truncation_witness :
  slice_name "Rice, white" = "Rice, white" /\
  String.length (slice_name "Chicken, broilers or fryers, breast") = 15%nat /\
  substring 12 3 (slice_name "Chicken, broilers or fryers, breast") = "...".
Proof.
  destruct (slice_name_truncation "Rice, white") as (Hshort & _).
  destruct (slice_name_truncation "Chicken, broilers or fryers, breast")
    as (_ & Hlong & _).
  split; [apply Hshort; simpl; lia|].
  assert (H : (12 < String.length "Chicken, broilers or fryers, breast")%nat)
    by (simpl; lia).
  destruct (Hlong H) as (Hlen & _ & Hdots).
  split; [exact Hlen | exact Hdots].
Defined.

Lemma map_indexed_nth {A B : Type} (f : A -> nat -> B) (l : list A) :
  forall (k i : nat),
    nth_error (map_indexed f l k) i
    = option_map (fun x => f x (k + i)%nat) (nth_error l i).
Proof.
  induction l as [|x l IH]; intros k i.
  - destruct i; reflexivity.
  - destruct i as [|i]; simpl.
    + now rewrite Nat.add_0_r.
    + rewrite IH. now rewrite Nat.add_succ_r.
Qed.

Lemma map_indexed_length {A B : Type} (f : A -> nat -> B) (l : list A) :
  forall k, List.length (map_indexed f l k) = List.length l.
Proof. induction l as [|x l IH]; intros k; simpl; [reflexivity | now rewrite IH]. Qed.

(** X8.  The ingredient chart has one slice per ingredient, in order, with
    the ingredient's amount and percentage; every slice gets a colour of
    the palette (never [undefined]), and slices whose positions differ by a
    multiple of 8 share their colour. *)
Theorem ingredientData_slices :
  forall (l : list RecipeIngredient),
    List.length (ingredientData l) = List.length l /\
    (forall (i : nat) (ing : RecipeIngredient),
        nth_error l i = Some ing ->
        exists sl c,
          nth_error (ingredientData l) i = Some sl /\
          Slice.name sl = slice_name (description ing) /\
          Slice.value sl = amount_g ing /\
          Slice.percentage sl = percentage ing /\
          Slice.color sl = Some c /\ In c COLORS /\
          (forall j sl', nth_error (ingredientData l) j = Some sl' ->
                         (j mod 8 = i mod 8)%nat ->
                         Slice.color sl' = Some c)).
Proof.
  intros l. split; [apply map_indexed_length|].
  intros i ing Hi.
  assert (Hcol : exists c, nth_error COLORS (i mod 8) = Some c).
  { destruct (nth_error COLORS (i mod 8)) as [c|] eqn:E; [now exists c|].
    apply nth_error_None in E. change (List.length COLORS) with 8%nat in E.
    pose proof (Nat.mod_upper_bound i 8). lia. }
  destruct Hcol as [c Hc].
  exists (slice ing i), c.
  unfold ingredientData. rewrite map_indexed_nth, Hi. cbn [option_map Nat.add].
  split; [reflexivity|]. split; [reflexivity|]. split; [reflexivity|].
  split; [reflexivity|]. split; [exact Hc|]. split.
  - now apply nth_error_In with (i mod 8)%nat.
  - intros j sl' Hj Hmod. rewrite map_indexed_nth in Hj.
    destruct (nth_error l j) as [ing'|]; [|discriminate].
    cbn [option_map Nat.add] in Hj. injection Hj as <-.
    cbn [Slice.color slice]. change (List.length COLORS) with 8%nat.
    now rewrite Hmod.
Qed.

Lemma ingredientData_slices_witness :
  nth_error (ingredientData [sample_chicken; sample_rice]) 1
  = Some (slice sample_rice 1) /\
  Slice.color (slice sample_rice 1) = Some "#DC2626".
Proof.
  destruct (ingredientData_slices [sample_chicken; sample_rice]) as [_ Hslices].
  destruct (Hslices 1%nat sample_rice eq_refl)
    as (sl & c & Hnth & _ & _ & _ & Hcolor & _).
  change (Some (slice sample_rice 1) = Some sl) in Hnth.
  injection Hnth as <-.
  split; [reflexivity|].
  rewrite Hcolor. change (Some "#DC2626" = Some c) in Hcolor.
  now injection Hcolor as <-.
Defined.

(* ================================================================== *)
(** * Recipe generation, end to end *)
(* ================================================================== *)

(** X11.  An answer that is not an "Error" but lacks the recipe or the
    analysis is never returned, whatever its status says: the promise
    rejects with "Recipe data structure is incomplete". *)
Theorem generateRecipe_incomplete_answer :
  forall (post : ApiRequest -> Promise ResponseData)
         (request : RecipeGenerationRequest) (data : ResponseData),
    post (apiRequest_of request) = Resolved data ->
    data_status data <> "Error" ->
    data_recipe data = None \/ data_analysis data = None ->
    generateRecipe post request
    = Rejected (new_Error "Recipe data structure is incomplete").
Proof.
  intros post request data Hpost Hstatus Hmissing.
  rewrite (generateRecipe_resolved post request data Hpost).
  destruct (String.eqb_spec (data_status data) "Error"); [contradiction|].
  destruct Hmissing as [-> | ->]; [reflexivity|].
  destruct (data_recipe data); reflexivity.
Qed.

Lemma generateRecipe_incomplete_answer_witness :
  generateRecipe post_hollow sample_request
  = Rejected (new_Error "Recipe data structure is incomplete").
Proof.
  apply (generateRecipe_incomplete_answer post_hollow sample_request hollow_answer).
  - reflexivity.
  - discriminate.
  - left. reflexivity.
Defined.

(** X12.  A complete answer with status "Success" goes all the way to the
    screen: [generateRecipe] resolves with the backend's recipe and
    analysis untouched, the shell shows the result page for it, and the
    report component renders a report (not its "unavailable" notice). *)
Theorem successful_answer_is_rendered :
  forall (post : ApiRequest -> Promise ResponseData)
         (request : RecipeGenerationRequest) (data : ResponseData)
         (r : RecipeData) (a : Analysis),
    post (apiRequest_of request) = Resolved data ->
    data_status data = "Success" ->
    data_recipe data = Some r ->
    data_analysis data = Some a ->
    exists result,
      generateRecipe post request = Resolved result /\
      status result = "Success" /\
      recipe result = r /\
      analysis result = a /\
      (forall pet, MainApp_page (result_step pet result) = RecipeResultPage result) /\
      (exists report, RecipeResult_component (Some result) = Rendered report).
Proof.
  intros post request data r a Hpost Hstatus Hr Ha.
  eexists. split.
  - rewrite (generateRecipe_resolved post request data Hpost), Hstatus, Hr, Ha.
    reflexivity.
  - split; [reflexivity|]. split; [reflexivity|]. split; [reflexivity|].
    split; [intros pet; reflexivity|].
    eexists. reflexivity.
Qed.

Lemma successful_answer_is_rendered_witness :
  generateRecipe post_success sample_request = Resolved sample_result /\
  MainApp_page (result_step (Some sample_pet) sample_result)
  = RecipeResultPage sample_result.
Proof.
  destruct (successful_answer_is_rendered post_success sample_request
              success_answer sample_recipe (sample_analysis None)
              eq_refl eq_refl eq_refl eq_refl)
    as (result & Hgen & _ & _ & _ & Hpage & _).
  change (Resolved sample_result = Resolved result) in Hgen.
  injection Hgen as <-.
  split; [reflexivity | apply Hpage].
Defined.

(* ================================================================== *)
(** * The application shell *)
(* ================================================================== *)

(** X14.  What the shell shows is backed by its state: the result page
    appears only for a stored recipe with status "Success", at step 2 and
    with both busy flags down, and then the report component renders a
    report; the error page appears only for a stored recipe with status
    "Error" and shows that recipe's reason; a stored recipe with any other
    status (the declared "Failed", say) leads to the home page. *)
Theorem MainApp_page_sound :
  forall (s : AppState),
    (forall r, MainApp_page s = RecipeResultPage r ->
               app_recipe s = Some r /\ status r = "Success" /\
               app_currentStep s = 2%Z /\
               app_isLoading s = false /\ app_isGenerating s = false /\
               exists report, RecipeResult_component (Some r) = Rendered report) /\
    (forall reason, MainApp_page s = RecipeErrorPage reason ->
               exists r, app_recipe s = Some r /\ status r = "Error" /\
                         reason = error r) /\
    (forall r, app_recipe s = Some r ->
               app_isLoading s = false -> app_isGenerating s = false ->
               app_currentStep s = 2%Z ->
               status r <> "Success" -> status r <> "Error" ->
               MainApp_page s = HomepagePage).
Proof.
  intros s. unfold MainApp_page. split; [|split].
  - intros r H.
    destruct (app_isLoading s), (app_isGenerating s); try discriminate.
    destruct (app_currentStep s) as [|[[]|[]|]|]; try discriminate;
      try (destruct (app_pet s); discriminate).
    destruct (app_recipe s) as [r'|]; [|discriminate].
    destruct (String.eqb_spec (status r') "Success") as [Hs|];
      [|destruct (String.eqb (status r') "Error"); discriminate].
    injection H as <-.
    repeat split; try assumption.
    unfold RecipeResult_component. rewrite Hs. eexists. reflexivity.
  - intros reason H.
    destruct (app_isLoading s), (app_isGenerating s); try discriminate.
    destruct (app_currentStep s) as [|[[]|[]|]|]; try discriminate;
      try (destruct (app_pet s); discriminate).
    destruct (app_recipe s) as [r'|]; [|discriminate].
    destruct (String.eqb (status r') "Success"); [discriminate|].
    destruct (String.eqb_spec (status r') "Error") as [He|]; [|discriminate].
    injection H as <-. exists r'. repeat split. exact He.
  - intros r Hr Hl Hg Hstep Hs He. rewrite Hl, Hg, Hstep, Hr. simpl.
    destruct (String.eqb_spec (status r) "Success"); [contradiction|].
    destruct (String.eqb_spec (status r) "Error"); [contradiction|].
    reflexivity.
Qed.

Lemma MainApp_page_sound_witness :
  MainApp_page (result_step (Some sample_pet) failed_result) = HomepagePage.
Proof.
  destruct (MainApp_page_sound (result_step (Some sample_pet) failed_result))
    as (_ & _ & Hother).
  apply (Hother failed_result); try reflexivity; discriminate.
Defined.

(** X15.  [handleGenerateRecipe] issues a request only for a stored pet with
    a non-zero id while nothing is in flight; the request never asks for a
    preferred weight, and what [generateRecipe] posts for it carries the
    pet's id and its daily calories, the latter only if they are a non-zero
    number. *)
Theorem handleGenerateRecipe_request_shape :
  forall (pet : option AppPet.t) (isGenerating hasTriggered : bool)
         (request : RecipeGenerationRequest),
    handleGenerateRecipe_request pet isGenerating hasTriggered = Some request ->
    isGenerating = false /\ hasTriggered = false /\
    req_pet_id request <> 0%Z /\
    (exists p, pet = Some p /\ AppPet.id p = Some (req_pet_id request) /\
               req_target_calories request = AppPet.daily_calories_kcal p) /\
    api_pet_id (apiRequest_of request) = req_pet_id request /\
    api_preferred_weight_g (apiRequest_of request) = None /\
    (forall v, api_target_calories (apiRequest_of request) = Some v ->
               JS.truthy v = true /\ req_target_calories request = Some v).
Proof.
  intros pet g h request H. unfold handleGenerateRecipe_request in H.
  destruct pet as [p|]; [|discriminate].
  destruct (AppPet.id p) as [i|] eqn:Hid; [|discriminate].
  destruct (Z.eqb_spec i 0) as [|Hne]; [discriminate|].
  destruct g; [discriminate|]. destruct h; [discriminate|].
  injection H as <-. cbn [req_pet_id req_target_calories].
  split; [reflexivity|]. split; [reflexivity|]. split; [exact Hne|].
  split; [exists p; repeat split; exact Hid|].
  split; [reflexivity|]. split; [reflexivity|].
  unfold apiRequest_of, number_or_undefined.
  cbn [api_target_calories req_target_calories].
  intros v Hv. destruct (AppPet.daily_calories_kcal p) as [c|]; [|discriminate].
  destruct (JS.truthy c) eqn:Ht; [|discriminate].
  injection Hv as <-. split; [exact Ht | reflexivity].
Qed.

Lemma handleGenerateRecipe_request_shape_witness :
  handleGenerateRecipe_request (Some sample_pet) false false = Some sample_request /\
  api_preferred_weight_g (apiRequest_of sample_request) = None.
Proof.
  assert (H : handleGenerateRecipe_request (Some sample_pet) false false
              = Some sample_request) by reflexivity.
  split; [exact H|].
  apply (handleGenerateRecipe_request_shape _ _ _ _ H).
Defined.

(* ================================================================== *)
(** * Creating a pet *)
(* ================================================================== *)

Lemma or_num_truthy :
  forall (x : option JS.number) (d : JS.number),
    JS.truthy d = true -> JS.truthy (JS.or_num x d) = true.
Proof.
  intros [v|] d Hd; cbn [JS.or_num]; [|exact Hd].
  destruct (JS.truthy v) eqn:Hv; assumption.
Qed.

Lemma or_num_not_NaN :
  forall (x : option JS.number) (d : JS.number),
    d <> JS.NaN -> JS.or_num x d <> JS.NaN.
Proof.
  intros [v|] d Hd; cbn [JS.or_num]; [|exact Hd].
  destruct (JS.truthy v) eqn:Hv; [|exact Hd].
  intros ->. discriminate.
Qed.

(** X16.  What [petAPI.createPet] posts: the allergies are never
    transmitted; the two lactation fields are present exactly for a
    lactating pet, and then they are non-zero numbers, the form's own when
    those are non-zero and 4 weeks / 1 nursling otherwise; an empty name
    becomes [null].  The call itself adds nothing to the outcome of the
    post: the answer is returned, a failure is thrown again unchanged. *)
Theorem createPet_posted_data :
  forall (petData : PetFormData),
    let sent := createPet_apiData petData in
    sent_allergies sent = None /\
    (form_physiological_status petData = LACTATING ->
       exists w n,
         sent_lactation_week sent = Some w /\ sent_nursing_count sent = Some n /\
         JS.truthy w = true /\ JS.truthy n = true /\
         (JS.truthy_opt (form_lactation_week petData) = true ->
            form_lactation_week petData = Some w) /\
         (JS.truthy_opt (form_lactation_week petData) = false -> w = num 4) /\
         (JS.truthy_opt (form_nursing_count petData) = true ->
            form_nursing_count petData = Some n) /\
         (JS.truthy_opt (form_nursing_count petData) = false -> n = num 1)) /\
    (form_physiological_status petData <> LACTATING ->
       sent_lactation_week sent = None /\ sent_nursing_count sent = None) /\
    (sent_name sent = None <-> form_name petData = "") /\
    (forall (A : Type) (post : PetApiData -> Promise A),
        createPet post petData = post sent).
Proof.
  intros petData sent. subst sent. unfold createPet_apiData.
  cbn [sent_allergies sent_lactation_week sent_nursing_count sent_name].
  split; [reflexivity|]. split; [|split; [|split]].
  - intros ->. cbn [PhysiologicalStatus_value String.eqb Ascii.eqb Bool.eqb].
    do 2 eexists. split; [reflexivity|]. split; [reflexivity|].
    split; [apply or_num_truthy; reflexivity|].
    split; [apply or_num_truthy; reflexivity|].
    destruct (form_lactation_week petData) as [w|],
             (form_nursing_count petData) as [n|];
      cbn [JS.truthy_opt JS.or_num];
      repeat match goal with
             | |- context [JS.truthy ?x] => destruct (JS.truthy x)
             end;
      repeat split; intros; try reflexivity; discriminate.
  - intros H. destruct (form_physiological_status petData);
      try (split; reflexivity). contradiction.
  - unfold string_or_null. destruct (form_name petData); cbn [JS.truthy_str];
      split; intros; try reflexivity; discriminate.
  - intros A post. unfold createPet, try_catch, bind.
    fold (createPet_apiData petData).
    destruct (post (createPet_apiData petData)); reflexivity.
Qed.

Lemma createPet_posted_data_witness :
  sent_lactation_week (createPet_apiData nursing_form) = Some (num 4) /\
  sent_nursing_count (createPet_apiData nursing_form) = Some (num 5).
Proof.
  destruct (createPet_posted_data nursing_form) as (_ & Hlact & _).
  destruct (Hlact eq_refl) as (w & n & Hw & Hn & _ & _ & _ & Hw4 & Hn5 & _).
  rewrite Hw, Hn, (Hw4 eq_refl).
  specialize (Hn5 eq_refl). injection Hn5 as <-.
  split; reflexivity.
Defined.

(* ================================================================== *)
(** * The pet form *)
(* ================================================================== *)

Section FormInvariant.

Variable parseInt : string -> JS.number.
Variable parseFloat : string -> JS.number.

Lemma initialFormData_ok : form_ok initialFormData.
Proof.
  unfold form_ok, initialFormData; cbn.
  repeat split; try discriminate; auto.
Qed.

Lemma formUpdate_ok :
  forall (prev : PetFormData) (ev : FormEvent),
    form_ok prev -> form_ok (formUpdate parseInt parseFloat prev ev).
Proof.
  intros prev ev (Hsp & Hage & Hw & Hlw & Hnc & Hh & Ha).
  destruct ev; try exact initialFormData_ok;
    unfold form_ok, formUpdate;
    cbn [form_species form_age_months form_weight_kg form_lactation_week
         form_nursing_count form_health_conditions form_allergies];
    repeat split; auto;
    try (apply or_num_not_NaN; discriminate);
    try (intros x Hx; injection Hx as <-;
         apply (or_num_truthy (Some (parseInt text))); reflexivity).
Qed.

Lemma fold_formUpdate_ok :
  forall (events : list FormEvent) (start : PetFormData),
    form_ok start -> form_ok (fold_left (formUpdate parseInt parseFloat) events start).
Proof.
  induction events as [|ev events IH]; intros start Hstart; cbn [fold_left].
  - exact Hstart.
  - apply IH, formUpdate_ok, Hstart.
Qed.

Lemma formAfter_ok :
  forall (events : list FormEvent), form_ok (formAfter parseInt parseFloat events).
Proof.
  intros events. apply fold_formUpdate_ok, initialFormData_ok.
Qed.

End FormInvariant.

(** X17.  Whatever the user types and clicks, and however [parseInt] and
    [parseFloat] read the texts, the form holds a species that is "dog" or
    "cat", an age and a weight that are numbers (never [NaN]), lactation
    fields that are non-zero once they are set, and no health condition or
    allergy at all.  So for submitted form data [createPet] never needs the
    default branch of [calculateLifeStage]: a dog is sent as a puppy or an
    adult dog, a cat as a kitten or an adult cat, and young exactly when the
    age is below 12. *)
Theorem form_data_always_valid :
  forall (parseInt parseFloat : string -> JS.number) (events : list FormEvent),
    let f := formAfter parseInt parseFloat events in
    let sent := createPet_apiData f in
    form_ok f /\
    ((sent_species sent = "dog" /\
      sent_life_stage sent
      = (if (form_age_months f <? num 12)%js then DOG_PUPPY else DOG_ADULT)) \/
     (sent_species sent = "cat" /\
      sent_life_stage sent
      = (if (form_age_months f <? num 12)%js then CAT_KITTEN else CAT_ADULT))) /\
    sent_age_months sent <> JS.NaN /\
    sent_weight_kg sent <> JS.NaN /\
    sent_health_conditions sent = [].
Proof.
  intros parseInt parseFloat events f sent.
  pose proof (formAfter_ok parseInt parseFloat events) as Hok.
  fold f in Hok. split; [exact Hok|].
  destruct Hok as (Hsp & Hage & Hw & _ & _ & Hh & _).
  subst sent. unfold createPet_apiData.
  cbn [sent_species sent_life_stage sent_age_months sent_weight_kg
       sent_health_conditions].
  split; [|split; [exact Hage | split; [exact Hw | exact Hh]]].
  unfold calculateLifeStage.
  destruct Hsp as [-> | ->]; [left | right]; split; reflexivity.
Qed.

(** Clearing the age field of the initial form sends a puppy of age 0. *)
Example cleared_age_is_a_puppy :
  let sent := createPet_apiData
                (formAfter parse_nothing parse_nothing [EditAge ""]) in
  sent_age_months sent = num 0 /\ sent_life_stage sent = DOG_PUPPY.
Proof.
  split; reflexivity.
Qed.

(* ================================================================== *)
(** * The report tables *)
(* ================================================================== *)





(** X20.  For a pet on the adult-dog standards (in particular while no pet
    details are loaded) the protein and fat adequacy printed under "Key
    Findings" are the very numerals of the "Adequacy Ratio" column of the
    first two rows of Table 3. *)
Theorem key_findings_match_table :
  forall (r : RecipeResult) (petDetails : option PetDetails),
    life_stage (petInfo (recipe r) petDetails) = DOG_ADULT ->
    let view := useRecipeData r petDetails in
    map shown_ratio (firstn 2 (compliance_table (view_complianceData view)))
    = [ Printed (finding_protein_adequacy (view_nutrientDensity view));
        Printed (finding_fat_adequacy (view_nutrientDensity view)) ].
Proof.
  intros r petDetails Hstage view. subst view.
  unfold useRecipeData. cbn [view_complianceData view_nutrientDensity].
  rewrite Hstage.
  generalize (nutrientDensity (recipe r) (analysis r)) as d. intros d.
  reflexivity.
Qed.

Lemma key_findings_match_table_witness :
  map shown_ratio
      (firstn 2 (compliance_table
                   (view_complianceData (useRecipeData sample_result None))))
  = [ Printed (finding_protein_adequacy
                 (view_nutrientDensity (useRecipeData sample_result None)));
      Printed (finding_fat_adequacy
                 (view_nutrientDensity (useRecipeData sample_result None))) ].
Proof.
  apply (key_findings_match_table sample_result None). reflexivity.
Defined.

(** For a puppy the two disagree: Table 3 measures the protein against the
    puppy minimum, "Key Findings" still against 45.0. *)
Example key_findings_differ_for_puppy :
  let view := useRecipeData sample_result (Some puppy_details) in
  option_map shown_ratio
    (nth_error (compliance_table (view_complianceData view)) 0)
  = Some (Printed (JS.FixedDec false 200 0)) /\
  finding_protein_adequacy (view_nutrientDensity view) = JS.FixedDec false 133 0.
Proof.
  split; reflexivity.
Qed.

(* ================================================================== *)
(** * Recipe generation behind the response interceptor *)
(* ================================================================== *)

(** X22.  Behind the response interceptor [generateRecipe] never turns a
    failure into a result: every failure of the transport is thrown again
    as the plain error the interceptor made of it, and whatever is returned
    is the backend's own answer, complete and with a status other than
    "Error"; so the shell never shows the error page for it. *)
Theorem generateRecipe_behind_interceptor :
  forall (describe : JsError -> string)
         (raw : ApiRequest -> Promise ResponseData)
         (request : RecipeGenerationRequest),
    (forall e, raw (apiRequest_of request) = Rejected e ->
       generateRecipe (apiClient_post describe raw) request
       = Rejected (new_Error (describe e))) /\
    (forall result,
       generateRecipe (apiClient_post describe raw) request = Resolved result ->
       status result <> "Error" /\
       (exists data,
           raw (apiRequest_of request) = Resolved data /\
           data_status data = status result /\
           data_recipe data = Some (recipe result) /\
           data_analysis data = Some (analysis result)) /\
       (forall pet reason,
           MainApp_page (result_step pet result) <> RecipeErrorPage reason)).
Proof.
  intros describe raw request. split.
  - intros e He.
    assert (Hpost : apiClient_post describe raw (apiRequest_of request)
                    = Rejected (new_Error (describe e))).
    { unfold apiClient_post. now rewrite He. }
    rewrite (generateRecipe_rejected _ request _ Hpost). reflexivity.
  - intros result Hres.
    destruct (raw (apiRequest_of request)) as [data|e] eqn:Hraw.
    + assert (Hpost : apiClient_post describe raw (apiRequest_of request)
                      = Resolved data).
      { unfold apiClient_post. now rewrite Hraw. }
      rewrite (generateRecipe_resolved _ request data Hpost) in Hres.
      destruct (String.eqb_spec (data_status data) "Error") as [|Hne];
        [discriminate|].
      destruct (data_recipe data) as [r|] eqn:Hr; [|discriminate].
      destruct (data_analysis data) as [a|] eqn:Ha; [|discriminate].
      injection Hres as <-. cbn [status recipe analysis].
      split; [exact Hne|]. split.
      * exists data. repeat split; assumption.
      * intros pet reason. unfold MainApp_page, result_step.
        cbn [app_isLoading app_isGenerating app_currentStep app_recipe status
             orb Z.eqb Pos.eqb].
        destruct (String.eqb (data_status data) "Success"); [discriminate|].
        destruct (String.eqb_spec (data_status data) "Error");
          [contradiction | discriminate].
    + assert (Hpost : apiClient_post describe raw (apiRequest_of request)
                      = Rejected (new_Error (describe e))).
      { unfold apiClient_post. now rewrite Hraw. }
      rewrite (generateRecipe_rejected _ request _ Hpost) in Hres.
      discriminate.
Qed.

Lemma generateRecipe_behind_interceptor_witness :
  generateRecipe (apiClient_post describe_message post_unreachable) sample_request
  = Rejected (new_Error "Network Error").
Proof.
  apply (proj1 (generateRecipe_behind_interceptor describe_message
                  post_unreachable sample_request) network_error).
  reflexivity.
Defined.

(* ================================================================== *)
(** * Table 3 as displayed *)
(* ================================================================== *)


